(** * XDP packet parser (packet01-parsing/xdp_prog_kern.c)

    A shallow embedding of the header-parsing helpers [parse_ethhdr],
    [parse_ip6hdr], [parse_iphdr], [parse_icmp6hdr], [parse_icmphdr] and of
    the classifier [xdp_parser_func], followed by the properties of the
    classifier.

    Conventions of the embedding:
    - a frame is the byte buffer [data, data_end); pointers are byte offsets
      from [data], so [data] is 0 and [data_end] is the length of the frame;
    - every memory access goes through [load_u8]; an access outside the frame
      has no value ([None]).  A parser that returns [Some _] has therefore
      read only bytes of the frame;
    - a parser receives the cursor and the current content of the caller's
      out-parameter, and returns its C return value together with the cursor
      and the out-parameter as it leaves them;
    - the byte order of the host is a parameter: every statement holds on
      little-endian and on big-endian targets. *)

From Stdlib Require Import ZArith Lia.
From Stdlib.Strings Require Import Byte.
From stdpp Require Import base decidable option list gmap.

Local Open Scope Z_scope.

(** ** Frames and memory *)

Abbreviation frame := (list byte).

Definition byte_val (b : byte) : Z := Z.of_N (Byte.to_N b).

Definition data_end (f : frame) : Z := Z.of_nat (length f).

Definition load_u8 (f : frame) (p : Z) : option Z :=
  if decide (0 <= p) then byte_val <$> f !! Z.to_nat p else None.

Inductive byte_order := LittleEndian | BigEndian.

(** ** linux/bpf.h: the action codes *)

Inductive xdp_action := XDP_ABORTED | XDP_DROP | XDP_PASS | XDP_TX | XDP_REDIRECT.

Definition xdp_action_code (a : xdp_action) : Z :=
  match a with
  | XDP_ABORTED => 0
  | XDP_DROP => 1
  | XDP_PASS => 2
  | XDP_TX => 3
  | XDP_REDIRECT => 4
  end.

(** ** linux/if_ether.h, linux/ip.h, linux/ipv6.h, linux/icmp.h, linux/icmpv6.h:
    protocol numbers, header sizes and field offsets *)

Definition ETH_P_IP : Z := 0x0800.
Definition ETH_P_IPV6 : Z := 0x86DD.
Definition ETH_P_8021Q : Z := 0x8100.
Definition ETH_P_8021AD : Z := 0x88A8.

Definition sizeof_ethhdr : Z := 14.
Definition offsetof_h_proto : Z := 12.

Definition sizeof_ipv6hdr : Z := 40.
Definition offsetof_nexthdr : Z := 6.

Definition sizeof_iphdr : Z := 20.
Definition offsetof_protocol : Z := 9.

Definition sizeof_icmp6hdr : Z := 8.
Definition offsetof_icmp6_type : Z := 0.
Definition offsetof_icmp6_sequence : Z := 6.

Definition sizeof_icmphdr : Z := 8.
Definition offsetof_type : Z := 0.
Definition offsetof_echo_sequence : Z := 6.

(** ** xdp_prog_kern.c: constants and types *)

Definition VLAN_MAX_DEPTH : Z := 2.

Record hdr_cursor := { pos : Z }.

(** [struct vlan_hdr { __be16 h_vlan_TCI; __be16 h_vlan_encapsulated_proto; }] *)
Definition sizeof_vlan_hdr : Z := 4.
Definition offsetof_h_vlan_encapsulated_proto : Z := 2.

(** The counter sink: action code to 64-bit counter. *)
Abbreviation stats_map := (gmap Z Z).

(** Modelled from the spec: [xdp_stats_record_action] is defined in
    common/xdp_stats_kern.h, which is not among the sources.  The
    specification says that the classifier reports the chosen action to the
    counter sink, which increments the counter of that action, and returns
    that action to the caller. *)
Definition xdp_stats_record_action (stats : stats_map) (action : xdp_action)
  : xdp_action * stats_map :=
  let k := xdp_action_code action in
  (action, <[k := (default 0 (stats !! k) + 1) mod 2 ^ 64]> stats).

(** What a parser returns: the C return value, the cursor, the out-parameter. *)
Abbreviation parsed := (Z * hdr_cursor * option Z)%type.

Inductive parser := ParseEth | ParseIp6 | ParseIp | ParseIcmp6 | ParseIcmp.

Section Host.

Variable host : byte_order.

(** A two-byte field read as a [__u16] of the host. *)
Definition load_u16 (f : frame) (p : Z) : option Z :=
  b0 ← load_u8 f p;
  b1 ← load_u8 f (p + 1);
  Some (match host with
        | LittleEndian => Z.lor b0 (Z.shiftl b1 8)
        | BigEndian => Z.lor (Z.shiftl b0 8) b1
        end).

(** bpf/bpf_endian.h *)
Definition bpf_swab16 (x : Z) : Z :=
  Z.lor (Z.land (Z.shiftl (Z.land x 0x00ff) 8) 0xffff)
        (Z.shiftr (Z.land x 0xff00) 8).

Definition bpf_htons (x : Z) : Z :=
  match host with LittleEndian => bpf_swab16 x | BigEndian => x end.

Definition bpf_ntohs (x : Z) : Z :=
  match host with LittleEndian => bpf_swab16 x | BigEndian => x end.

(** [ipv4h->ihl]: the low four bits of the first byte, whatever the order in
    which the host declares the two bit-fields. *)
Definition load_ihl (f : frame) (p : Z) : option Z :=
  b ← load_u8 f p; Some (Z.land b 0x0f).

Definition proto_is_vlan (h_proto : Z) : bool :=
  bool_decide (h_proto = bpf_htons ETH_P_8021Q) ||
  bool_decide (h_proto = bpf_htons ETH_P_8021AD).

(** The loop of [parse_ethhdr]; [n] iterations remain, [i] is the loop
    counter, [vh] the address of the first tag. *)
Fixpoint vlan_loop (f : frame) (vh : Z) (n : nat) (i : Z)
    (proto : Z) (nh : hdr_cursor) : option (Z * hdr_cursor) :=
  match n with
  | O => Some (proto, nh)
  | S n' =>
      if decide (vh + i * sizeof_vlan_hdr + sizeof_vlan_hdr > data_end f)
      then Some (proto, nh)
      else
        proto' ← load_u16 f (vh + i * sizeof_vlan_hdr
                                + offsetof_h_vlan_encapsulated_proto);
        if negb (proto_is_vlan proto') then Some (proto', nh)
        else vlan_loop f vh n' (i + 1) proto'
               {| pos := vh + i * sizeof_vlan_hdr + sizeof_vlan_hdr |}
  end.

Definition parse_ethhdr (f : frame) (nh : hdr_cursor) (ethhdr : option Z)
  : option parsed :=
  let eth := pos nh in
  if decide (eth + sizeof_ethhdr > data_end f) then Some (-1, nh, ethhdr)
  else
    let nh := {| pos := eth + sizeof_ethhdr |} in
    let ethhdr := Some eth in
    proto ← load_u16 f (eth + offsetof_h_proto);
    if proto_is_vlan proto then
      let vh := pos nh in
      '(proto, nh) ← vlan_loop f vh (Z.to_nat VLAN_MAX_DEPTH) 0 proto nh;
      Some (proto, nh, ethhdr)
    else Some (proto, nh, ethhdr).

Definition parse_ip6hdr (f : frame) (nh : hdr_cursor) (ip6hdr : option Z)
  : option parsed :=
  let ip6h := pos nh in
  if decide (ip6h + sizeof_ipv6hdr > data_end f) then Some (-1, nh, ip6hdr)
  else
    let nh := {| pos := ip6h + sizeof_ipv6hdr |} in
    let ip6hdr := Some ip6h in
    nexthdr ← load_u8 f (ip6h + offsetof_nexthdr);
    Some (nexthdr, nh, ip6hdr).

Definition parse_iphdr (f : frame) (nh : hdr_cursor) (iph : option Z)
  : option parsed :=
  let ipv4h := pos nh in
  if decide (ipv4h + sizeof_iphdr > data_end f) then Some (-1, nh, iph)
  else
    ihl ← load_ihl f ipv4h;
    let hdrsize := ihl * 4 in
    if decide (ipv4h + hdrsize > data_end f) then Some (-1, nh, iph)
    else
      let nh := {| pos := ipv4h + hdrsize |} in
      let iph := Some ipv4h in
      protocol ← load_u8 f (ipv4h + offsetof_protocol);
      Some (protocol, nh, iph).

Definition parse_icmp6hdr (f : frame) (nh : hdr_cursor) (icmp6hdr : option Z)
  : option parsed :=
  let icmp6h := pos nh in
  if decide (icmp6h + sizeof_icmp6hdr > data_end f) then Some (-1, nh, icmp6hdr)
  else
    let nh := {| pos := icmp6h + sizeof_icmp6hdr |} in
    let icmp6hdr := Some icmp6h in
    icmp6_type ← load_u8 f (icmp6h + offsetof_icmp6_type);
    Some (icmp6_type, nh, icmp6hdr).

Definition parse_icmphdr (f : frame) (nh : hdr_cursor) (icmphd : option Z)
  : option parsed :=
  let icmph := pos nh in
  if decide (icmph + sizeof_icmphdr > data_end f) then Some (-1, nh, icmphd)
  else
    let nh := {| pos := icmph + sizeof_icmphdr |} in
    let icmphd := Some icmph in
    type ← load_u8 f (icmph + offsetof_type);
    Some (type, nh, icmphd).

Definition run_parser (p : parser) : frame → hdr_cursor → option Z → option parsed :=
  match p with
  | ParseEth => parse_ethhdr
  | ParseIp6 => parse_ip6hdr
  | ParseIp => parse_iphdr
  | ParseIcmp6 => parse_icmp6hdr
  | ParseIcmp => parse_icmphdr
  end.

(** The classifier.  The header handles [eth], [ip6h], [icmp6h], [iph] and
    [icmph] are uninitialised ([None]) on entry; reading through an
    uninitialised handle has no value. *)
Definition xdp_parser_func (f : frame) (stats : stats_map)
  : option (xdp_action * stats_map) :=
  let action := XDP_PASS in
  let nh := {| pos := 0 |} in
  '(nh_type, nh, eth) ← parse_ethhdr f nh None;
  action ←
    (if decide (nh_type = bpf_htons ETH_P_IPV6) then
       '(_, nh, ip6h) ← parse_ip6hdr f nh None;
       '(r, nh, icmp6h) ← parse_icmp6hdr f nh None;
       if decide (r < 0) then Some action
       else
         h ← icmp6h;
         sequence ← load_u16 f (h + offsetof_icmp6_sequence);
         let seqno := bpf_ntohs sequence in
         if decide (Z.rem seqno 2 = 1) then Some XDP_PASS else Some XDP_DROP
     else if decide (nh_type = bpf_htons ETH_P_IP) then
       '(_, nh, iph) ← parse_iphdr f nh None;
       '(r, nh, icmph) ← parse_icmphdr f nh None;
       if decide (r < 0) then Some action
       else
         h ← icmph;
         sequence ← load_u16 f (h + offsetof_echo_sequence);
         let seqno := bpf_ntohs sequence in
         if decide (Z.rem seqno 2 = 1) then Some XDP_PASS else Some XDP_DROP
     else Some action);
  Some (xdp_stats_record_action stats action).

End Host.

(** ** Wire-level view of a frame

    The value of a two-byte field as it is on the wire (big-endian), used to
    state properties independently of the host. *)

Definition wire_u16 (f : frame) (p : Z) : option Z :=
  b0 ← load_u8 f p;
  b1 ← load_u8 f (p + 1);
  Some (256 * b0 + b1).

(** ** Frames named by the properties

    Untagged Ethernet/IP/ICMP echo frames, the echo sequence number they
    carry, and the insertion of a VLAN tag after the two MAC addresses. *)

Inductive ip_version := IPv4 | IPv6.

Definition IPPROTO_ICMP : Z := 1.
Definition IPPROTO_ICMPV6 : Z := 58.
Definition ICMP_ECHO : Z := 8.
Definition ICMP_ECHOREPLY : Z := 0.
Definition ICMPV6_ECHO_REQUEST : Z := 128.
Definition ICMPV6_ECHO_REPLY : Z := 129.

(** The version and header-length nibbles of the byte at offset [p]. *)
Definition wire_version (f : frame) (p : Z) : option Z :=
  b ← load_u8 f p; Some (b / 16).

Definition wire_ihl (f : frame) (p : Z) : option Z :=
  b ← load_u8 f p; Some (b mod 16).

(** Offset of the L4 header of an untagged frame: 14 + 40 for IPv6,
    14 + IHL * 4 for IPv4. *)
Definition l4_offset (v : ip_version) (f : frame) : Z :=
  match v with
  | IPv6 => sizeof_ethhdr + sizeof_ipv6hdr
  | IPv4 => sizeof_ethhdr + 4 * default 0 (wire_ihl f sizeof_ethhdr)
  end.

Definition echo_frame (v : ip_version) (f : frame) : bool :=
  match v with
  | IPv6 =>
      bool_decide (wire_u16 f 12 = Some ETH_P_IPV6)
      && bool_decide (wire_version f 14 = Some 6)
      && bool_decide (load_u8 f (14 + 6) = Some IPPROTO_ICMPV6)
      && bool_decide (l4_offset IPv6 f + 8 <= data_end f)
      && (bool_decide (load_u8 f (l4_offset IPv6 f) = Some ICMPV6_ECHO_REQUEST)
          || bool_decide (load_u8 f (l4_offset IPv6 f) = Some ICMPV6_ECHO_REPLY))
  | IPv4 =>
      bool_decide (wire_u16 f 12 = Some ETH_P_IP)
      && bool_decide (wire_version f 14 = Some 4)
      && bool_decide (5 <= default 0 (wire_ihl f 14))
      && bool_decide (load_u8 f (14 + 9) = Some IPPROTO_ICMP)
      && bool_decide (l4_offset IPv4 f + 8 <= data_end f)
      && (bool_decide (load_u8 f (l4_offset IPv4 f) = Some ICMP_ECHO)
          || bool_decide (load_u8 f (l4_offset IPv4 f) = Some ICMP_ECHOREPLY))
  end.

(** The echo sequence number, read from the wire in network byte order. *)
Definition echo_sequence (v : ip_version) (f : frame) : option Z :=
  wire_u16 f (l4_offset v f + 6).

(** The action of the parity rule for sequence number [s]. *)
Definition parity_action (s : Z) : xdp_action :=
  if Z.even s then XDP_DROP else XDP_PASS.

(** What the L4 stage of the classifier decides with the cursor at [p]:
    [XDP_PASS] when eight bytes do not fit there, and otherwise the parity
    rule on the big-endian 16-bit field at bytes 6 and 7 from [p]. *)
Definition l4_verdict (f : frame) (p : Z) : xdp_action :=
  if decide (p + 8 > data_end f) then XDP_PASS
  else parity_action (default 0 (wire_u16 f (p + 6))).

(** The EtherType that selects each branch of the classifier, and the L3
    parser that branch calls. *)
Definition ethertype_of (v : ip_version) : Z :=
  match v with IPv4 => ETH_P_IP | IPv6 => ETH_P_IPV6 end.

Definition parse_l3 (v : ip_version) : frame → hdr_cursor → option Z → option parsed :=
  match v with IPv4 => parse_iphdr | IPv6 => parse_ip6hdr end.

(** A 4-byte VLAN tag (TPID, then TCI) inserted after the MAC addresses; the
    EtherType of the frame becomes the encapsulated protocol of the tag. *)
Definition insert_vlan_tag (tpid tci : list byte) (f : frame) : frame :=
  take 12 f ++ tpid ++ tci ++ drop 12 f.

Definition TPID_8021Q : list byte := [x81; x00].
Definition TPID_8021AD : list byte := [x88; xa8].

(** The action alone, for a run that starts from empty counters. *)
Definition classify (host : byte_order) (f : frame) : option xdp_action :=
  fst <$> xdp_parser_func host f ∅.

(** ** Concrete frames *)

Definition eth_header (ethertype : list byte) : frame :=
  replicate 6 xff ++ replicate 6 x00 ++ ethertype.

(** IPv6 header: version 6, payload length [len], next header [nh], hop
    limit 64, source ::1, destination ::2. *)
Definition ip6_header (len nh : byte) : frame :=
  [x60; x00; x00; x00; x00; len; nh; x40]
  ++ replicate 15 x00 ++ [x01] ++ replicate 15 x00 ++ [x02].

(** IPv4 header without options: version 4, IHL 5, total length 28, TTL 64,
    protocol ICMP, 10.0.0.1 to 10.0.0.2. *)
Definition ip4_header : frame :=
  [x45; x00; x00; x1c; x00; x00; x00; x00; x40; x01; x66; xdf;
   x0a; x00; x00; x01; x0a; x00; x00; x02].

(** ICMPv6 echo request, identifier 1, sequence 4, with its checksum. *)
Definition icmp6_echo_seq4 : frame := [x80; x00; x7f; xb5; x00; x01; x00; x04].

(** ICMPv6 echo request, identifier 1, sequence 3, with its checksum. *)
Definition icmp6_echo_seq3 : frame := [x80; x00; x7f; xb6; x00; x01; x00; x03].

(** ICMPv4 echo request, identifier 1, sequence 1, with its checksum. *)
Definition icmp_echo_seq1 : frame := [x08; x00; xf7; xfd; x00; x01; x00; x01].

(** TCP SYN segment, ports 4660 to 80, sequence number 2. *)
Definition tcp_syn : frame :=
  [x12; x34; x00; x50; x00; x00; x00; x02; x00; x00; x00; x00;
   x50; x02; xff; xff; x00; x00; x00; x00].

Definition frame_v6_echo_seq4 : frame :=
  eth_header [x86; xdd] ++ ip6_header x08 x3a ++ icmp6_echo_seq4.

Definition frame_v6_echo_seq3 : frame :=
  eth_header [x86; xdd] ++ ip6_header x08 x3a ++ icmp6_echo_seq3.

Definition frame_v4_echo_seq1 : frame :=
  eth_header [x08; x00] ++ ip4_header ++ icmp_echo_seq1.

Definition frame_v6_tcp : frame :=
  eth_header [x86; xdd] ++ ip6_header x14 x06 ++ tcp_syn.

Definition frame_arp : frame :=
  eth_header [x08; x06] ++ replicate 28 x00.

(** An IPv4 header whose IHL field is 2. *)
Definition ip4_header_ihl2 : frame :=
  [x42; x00; x00; x1c; x00; x00; x00; x00; x40; x01; x00; x00;
   x0a; x00; x00; x01; x0a; x00; x00; x02].

(** ** Vocabulary of the parser properties *)

(** The size of the header each parser checks before it reads from it. *)
Definition header_size (p : parser) : Z :=
  match p with
  | ParseEth => sizeof_ethhdr
  | ParseIp6 => sizeof_ipv6hdr
  | ParseIp => sizeof_iphdr
  | ParseIcmp6 => sizeof_icmp6hdr
  | ParseIcmp => sizeof_icmphdr
  end.

(** A wire value that names a VLAN tag. *)
Definition vlan_tpid (w : Z) : bool :=
  bool_decide (w = ETH_P_8021Q) || bool_decide (w = ETH_P_8021AD).

(** The C return value of [parse_ethhdr] for a wire-level outcome: a failure,
    or an EtherType kept in network byte order. *)
Definition host_retval (host : byte_order) (ow : option Z) : Z :=
  match ow with Some w => bpf_htons host w | None => -1 end.

(** The IPv6 echo frame with sequence number 4 behind three VLAN tags. *)
Definition frame_v6_three_tags : frame :=
  insert_vlan_tag TPID_8021AD [x00; x01]
    (insert_vlan_tag TPID_8021Q [x00; x02]
       (insert_vlan_tag TPID_8021Q [x00; x03] frame_v6_echo_seq4)).

(** The same frame behind two VLAN tags. *)
Definition frame_v6_two_tags : frame :=
  insert_vlan_tag TPID_8021AD [x00; x01]
    (insert_vlan_tag TPID_8021Q [x00; x02] frame_v6_echo_seq4).

(** * Memory and byte-order lemmas *)

Lemma byte_val_range b : 0 <= byte_val b < 256.
Proof.
  unfold byte_val. pose proof (Byte.to_N_bounded b). lia.
Qed.

Lemma load_u8_inv f p v :
  load_u8 f p = Some v → (0 <= p < data_end f) ∧ (0 <= v < 256).
Proof.
  unfold load_u8, data_end. case_decide; [|done].
  destruct (f !! Z.to_nat p) as [b|] eqn:E; simpl; [|done].
  intros [= <-]. apply lookup_lt_Some in E.
  pose proof (byte_val_range b). lia.
Qed.

Lemma load_u8_in_bounds f p :
  0 <= p < data_end f → ∃ v, load_u8 f p = Some v ∧ 0 <= v < 256.
Proof.
  unfold load_u8, data_end. intros Hp. case_decide; [|lia].
  destruct (lookup_lt_is_Some_2 f (Z.to_nat p)) as [b Hb]; [lia|].
  exists (byte_val b). rewrite Hb. split; [done|apply byte_val_range].
Qed.

Lemma wire_u16_inv f p w :
  wire_u16 f p = Some w → (0 <= p ∧ p + 2 <= data_end f) ∧ (0 <= w < 65536).
Proof.
  unfold wire_u16. intros H.
  destruct (load_u8 f p) as [b0|] eqn:E0; simpl in H; [|done].
  destruct (load_u8 f (p + 1)) as [b1|] eqn:E1; simpl in H; [|done].
  injection H as <-.
  apply load_u8_inv in E0, E1. lia.
Qed.

Lemma wire_u16_in_bounds f p :
  0 <= p → p + 2 <= data_end f → ∃ w, wire_u16 f p = Some w ∧ 0 <= w < 65536.
Proof.
  intros H0 H2.
  destruct (load_u8_in_bounds f p) as (b0 & E0 & R0); [lia|].
  destruct (load_u8_in_bounds f (p + 1)) as (b1 & E1 & R1); [lia|].
  exists (256 * b0 + b1). unfold wire_u16. rewrite E0, E1. simpl.
  split; [done|lia].
Qed.

Lemma lor_shiftl8 h l : 0 <= l < 256 → Z.lor (Z.shiftl h 8) l = 256 * h + l.
Proof.
  intros Hl.
  assert (Hd : Z.land (Z.shiftl h 8) l = 0).
  { rewrite <- (Z.mod_small l (2 ^ 8)) by lia.
    rewrite <- Z.land_ones by lia.
    rewrite (Z.land_comm l), Z.land_assoc, Z.land_ones by lia.
    rewrite Z.shiftl_mul_pow2 by lia.
    rewrite Z.mod_mul by lia. reflexivity. }
  pose proof (Z.add_lor_land (Z.shiftl h 8) l) as E.
  rewrite Hd in E. rewrite (Z.shiftl_mul_pow2 h 8) in E at 2 by lia. lia.
Qed.

Lemma bpf_swab16_split h l :
  0 <= h < 256 → 0 <= l < 256 → bpf_swab16 (256 * h + l) = 256 * l + h.
Proof.
  intros Hh Hl. unfold bpf_swab16.
  change 0x00ff with (Z.ones 8). change 0xffff with (Z.ones 16).
  rewrite Z.shiftr_land. change (Z.shiftr 0xff00 8) with (Z.ones 8).
  rewrite !Z.land_ones by lia.
  rewrite Z.shiftr_div_pow2 by lia.
  replace ((256 * h + l) mod 2 ^ 8) with l
    by (apply (Z.mod_unique_pos _ _ h); lia).
  replace ((256 * h + l) / 2 ^ 8) with h
    by (apply (Z.div_unique_pos _ _ _ l); lia).
  rewrite (Z.mod_small h) by lia.
  rewrite Z.shiftl_mul_pow2 by lia.
  rewrite (Z.mod_small (l * 2 ^ 8)) by lia.
  rewrite <- Z.shiftl_mul_pow2 by lia.
  apply lor_shiftl8; lia.
Qed.

Lemma u16_split x :
  0 <= x < 65536 → ∃ h l, x = 256 * h + l ∧ 0 <= h < 256 ∧ 0 <= l < 256.
Proof.
  intros Hx. exists (x / 256), (x mod 256).
  pose proof (Z.div_mod x 256 ltac:(lia)).
  pose proof (Z.mod_pos_bound x 256 ltac:(lia)).
  assert (0 <= x / 256 < 256) by (split; [apply Z.div_pos|apply Z.div_lt_upper_bound]; lia).
  lia.
Qed.

Lemma bpf_htons_range host x : 0 <= x < 65536 → 0 <= bpf_htons host x < 65536.
Proof.
  intros Hx. destruct host; simpl; [|done].
  destruct (u16_split x Hx) as (h & l & -> & Hh & Hl).
  rewrite bpf_swab16_split by done. lia.
Qed.

Lemma bpf_ntohs_htons host x : 0 <= x < 65536 → bpf_ntohs host (bpf_htons host x) = x.
Proof.
  intros Hx. destruct host; simpl; [|done].
  destruct (u16_split x Hx) as (h & l & -> & Hh & Hl).
  rewrite !bpf_swab16_split by done. done.
Qed.

(** The host value of a two-byte field is [bpf_htons] of its wire value. *)
Lemma load_u16_wire host f p : load_u16 host f p = bpf_htons host <$> wire_u16 f p.
Proof.
  unfold load_u16, wire_u16.
  destruct (load_u8 f p) as [b0|] eqn:E0; simpl; [|done].
  destruct (load_u8 f (p + 1)) as [b1|] eqn:E1; simpl; [|done].
  apply load_u8_inv in E0 as [_ R0], E1 as [_ R1].
  f_equal. destruct host; simpl.
  - rewrite bpf_swab16_split by done.
    rewrite Z.lor_comm. apply lor_shiftl8; done.
  - apply lor_shiftl8; done.
Qed.

Lemma bpf_htons_inj host x y :
  0 <= x < 65536 → 0 <= y < 65536 → bpf_htons host x = bpf_htons host y → x = y.
Proof.
  intros Hx Hy E.
  rewrite <- (bpf_ntohs_htons host x), <- (bpf_ntohs_htons host y) by done.
  by rewrite E.
Qed.

(** * The parsers, case by case *)

Section Parsers.

Context (host : byte_order) (f : frame).

Lemma proto_is_vlan_wire w :
  0 <= w < 65536 →
  proto_is_vlan host (bpf_htons host w)
  = bool_decide (w = ETH_P_8021Q) || bool_decide (w = ETH_P_8021AD).
Proof.
  intros Hw. unfold proto_is_vlan. f_equal; apply bool_decide_ext; split.
  - apply bpf_htons_inj; [done|unfold ETH_P_8021Q; lia].
  - by intros ->.
  - apply bpf_htons_inj; [done|unfold ETH_P_8021AD; lia].
  - by intros ->.
Qed.

Lemma load_u16_in_bounds p :
  0 <= p → p + 2 <= data_end f →
  ∃ w, wire_u16 f p = Some w ∧ 0 <= w < 65536
       ∧ load_u16 host f p = Some (bpf_htons host w).
Proof.
  intros H0 H2. destruct (wire_u16_in_bounds f p H0 H2) as (w & E & R).
  exists w. rewrite load_u16_wire, E. done.
Qed.

Lemma load_u16_inv p v :
  load_u16 host f p = Some v → (0 <= p ∧ p + 2 <= data_end f) ∧ (0 <= v < 65536).
Proof.
  rewrite load_u16_wire. destruct (wire_u16 f p) as [w|] eqn:E; [|done].
  intros [= <-]. apply wire_u16_inv in E as [? ?].
  split; [done|by apply bpf_htons_range].
Qed.

(** The fixed-size parsers share one shape. *)

Lemma parse_ip6hdr_fail nh h :
  pos nh + 40 > data_end f → parse_ip6hdr f nh h = Some (-1, nh, h).
Proof. intros H. unfold parse_ip6hdr, sizeof_ipv6hdr. by case_decide; [|lia]. Qed.

Lemma parse_ip6hdr_ok nh h :
  0 <= pos nh → pos nh + 40 <= data_end f →
  ∃ v, load_u8 f (pos nh + 6) = Some v ∧ 0 <= v < 256
       ∧ parse_ip6hdr f nh h = Some (v, {| pos := pos nh + 40 |}, Some (pos nh)).
Proof.
  intros H0 H. unfold parse_ip6hdr, sizeof_ipv6hdr, offsetof_nexthdr.
  case_decide; [lia|].
  destruct (load_u8_in_bounds f (pos nh + 6)) as (v & E & R); [lia|].
  exists v. rewrite E. done.
Qed.

Lemma parse_icmp6hdr_fail nh h :
  pos nh + 8 > data_end f → parse_icmp6hdr f nh h = Some (-1, nh, h).
Proof. intros H. unfold parse_icmp6hdr, sizeof_icmp6hdr. by case_decide; [|lia]. Qed.

Lemma parse_icmp6hdr_ok nh h :
  0 <= pos nh → pos nh + 8 <= data_end f →
  ∃ v, load_u8 f (pos nh) = Some v ∧ 0 <= v < 256
       ∧ parse_icmp6hdr f nh h = Some (v, {| pos := pos nh + 8 |}, Some (pos nh)).
Proof.
  intros H0 H. unfold parse_icmp6hdr, sizeof_icmp6hdr, offsetof_icmp6_type.
  case_decide; [lia|]. rewrite Z.add_0_r.
  destruct (load_u8_in_bounds f (pos nh)) as (v & E & R); [lia|].
  exists v. rewrite E. done.
Qed.

Lemma parse_icmphdr_fail nh h :
  pos nh + 8 > data_end f → parse_icmphdr f nh h = Some (-1, nh, h).
Proof. intros H. unfold parse_icmphdr, sizeof_icmphdr. by case_decide; [|lia]. Qed.

Lemma parse_icmphdr_ok nh h :
  0 <= pos nh → pos nh + 8 <= data_end f →
  ∃ v, load_u8 f (pos nh) = Some v ∧ 0 <= v < 256
       ∧ parse_icmphdr f nh h = Some (v, {| pos := pos nh + 8 |}, Some (pos nh)).
Proof.
  intros H0 H. unfold parse_icmphdr, sizeof_icmphdr, offsetof_type.
  case_decide; [lia|]. rewrite Z.add_0_r.
  destruct (load_u8_in_bounds f (pos nh)) as (v & E & R); [lia|].
  exists v. rewrite E. done.
Qed.

(** IPv4: the header length comes from the frame. *)

Lemma load_ihl_wire p : load_ihl f p = wire_ihl f p.
Proof.
  unfold load_ihl, wire_ihl. destruct (load_u8 f p); [simpl|done].
  change 0x0f with (Z.ones 4). by rewrite Z.land_ones.
Qed.

Lemma wire_ihl_in_bounds p :
  0 <= p < data_end f → ∃ ihl, wire_ihl f p = Some ihl ∧ 0 <= ihl < 16.
Proof.
  intros Hp. destruct (load_u8_in_bounds f p Hp) as (b & E & R).
  exists (b mod 16). unfold wire_ihl. rewrite E. split; [done|].
  apply Z.mod_pos_bound. lia.
Qed.

Lemma parse_iphdr_fail_fixed nh h :
  pos nh + 20 > data_end f → parse_iphdr f nh h = Some (-1, nh, h).
Proof. intros H. unfold parse_iphdr, sizeof_iphdr. by case_decide; [|lia]. Qed.

Lemma parse_iphdr_fail_full nh h ihl :
  pos nh + 20 <= data_end f → wire_ihl f (pos nh) = Some ihl →
  pos nh + ihl * 4 > data_end f → parse_iphdr f nh h = Some (-1, nh, h).
Proof.
  intros H E Hfull. unfold parse_iphdr, sizeof_iphdr.
  case_decide; [lia|]. rewrite load_ihl_wire, E. simpl.
  by case_decide; [|lia].
Qed.

Lemma parse_iphdr_ok nh h ihl :
  pos nh + 20 <= data_end f → wire_ihl f (pos nh) = Some ihl →
  pos nh + ihl * 4 <= data_end f →
  ∃ v, load_u8 f (pos nh + 9) = Some v ∧ 0 <= v < 256
       ∧ parse_iphdr f nh h = Some (v, {| pos := pos nh + ihl * 4 |}, Some (pos nh)).
Proof.
  intros H E Hfull. unfold parse_iphdr, sizeof_iphdr, offsetof_protocol.
  case_decide; [lia|]. rewrite load_ihl_wire, E. simpl.
  case_decide; [lia|].
  assert (0 <= pos nh) as Hpos.
  { unfold wire_ihl in E. destruct (load_u8 f (pos nh)) eqn:E8; [|done].
    apply load_u8_inv in E8. lia. }
  destruct (load_u8_in_bounds f (pos nh + 9)) as (v & Ev & R); [lia|].
  exists v. rewrite Ev. done.
Qed.

End Parsers.

(** * The VLAN loop and the Ethernet parser *)

Section Ethernet.

Context (host : byte_order) (f : frame).

Lemma vlan_loop_inv vh n : ∀ i proto nh proto' nh',
  vlan_loop host f vh n i proto nh = Some (proto', nh') →
  (0 <= proto < 65536 → 0 <= proto' < 65536)
  ∧ (nh' = nh ∨ vh + i * 4 + 4 <= pos nh' <= data_end f).
Proof.
  induction n as [|n IH]; intros i proto nh proto' nh'; cbn [vlan_loop].
  - intros [= <- <-]. auto.
  - unfold sizeof_vlan_hdr, offsetof_h_vlan_encapsulated_proto.
    case_decide as Hfit; [intros [= <- <-]; auto|].
    destruct (load_u16 host f (vh + i * 4 + 2)) as [p1|] eqn:E; [|done].
    apply load_u16_inv in E as [_ R]. cbn [mbind option_bind].
    destruct (proto_is_vlan host p1); cbn [negb].
    + intros H. apply IH in H as [Hp [->|Hn]].
      * split; [auto|]. right. simpl. lia.
      * split; [auto|]. right. lia.
    + intros [= <- <-]. auto.
Qed.

Lemma vlan_loop_total vh n : ∀ i proto nh,
  0 <= vh → 0 <= i → is_Some (vlan_loop host f vh n i proto nh).
Proof.
  induction n as [|n IH]; intros i proto nh Hvh Hi; cbn [vlan_loop]; [done|].
  unfold sizeof_vlan_hdr, offsetof_h_vlan_encapsulated_proto.
  case_decide as Hfit; [done|].
  destruct (load_u16_in_bounds host f (vh + i * 4 + 2)) as (w & _ & _ & ->); [lia..|].
  cbn [mbind option_bind].
  destruct (proto_is_vlan host _); cbn [negb]; [|done].
  apply IH; lia.
Qed.

Lemma parse_ethhdr_fail nh h :
  pos nh + 14 > data_end f → parse_ethhdr host f nh h = Some (-1, nh, h).
Proof. intros H. unfold parse_ethhdr, sizeof_ethhdr. by case_decide; [|lia]. Qed.

Lemma parse_ethhdr_ok nh h :
  0 <= pos nh → pos nh + 14 <= data_end f →
  ∃ proto nh', parse_ethhdr host f nh h = Some (proto, nh', Some (pos nh))
               ∧ 0 <= proto < 65536
               ∧ pos nh + 14 <= pos nh' <= data_end f.
Proof.
  intros Hpos Hfit. unfold parse_ethhdr, sizeof_ethhdr, offsetof_h_proto.
  case_decide; [lia|].
  destruct (load_u16_in_bounds host f (pos nh + 12)) as (w & _ & Rw & ->); [lia..|].
  cbn [mbind option_bind pos].
  pose proof (bpf_htons_range host w Rw) as Rp.
  destruct (proto_is_vlan host _).
  - destruct (vlan_loop_total (pos nh + 14) (Z.to_nat VLAN_MAX_DEPTH) 0
                (bpf_htons host w) {| pos := pos nh + 14 |}) as [[p' nh'] E]; [lia..|].
    rewrite E. cbn [mbind option_bind].
    apply vlan_loop_inv in E as [Hp Hn].
    exists p', nh'. split; [done|]. split; [auto|].
    destruct Hn as [->|Hn]; simpl; lia.
  - eexists _, _. split; [done|]. simpl. lia.
Qed.

(** An untagged frame: the EtherType on the wire is not a VLAN TPID. *)
Lemma parse_ethhdr_untagged nh h w :
  wire_u16 f (pos nh + 12) = Some w → pos nh + 14 <= data_end f →
  w ≠ ETH_P_8021Q → w ≠ ETH_P_8021AD →
  parse_ethhdr host f nh h
  = Some (bpf_htons host w, {| pos := pos nh + 14 |}, Some (pos nh)).
Proof.
  intros E Hfit Hq Had. unfold parse_ethhdr, sizeof_ethhdr, offsetof_h_proto.
  case_decide; [lia|]. rewrite load_u16_wire, E.
  cbn [fmap option_fmap option_map mbind option_bind].
  apply wire_u16_inv in E as [_ Rw].
  rewrite proto_is_vlan_wire by done.
  by rewrite !bool_decide_eq_false_2.
Qed.

(** A parser that returns -1 has changed neither the cursor nor the handle. *)
Lemma run_parser_fail_inv p nh h nh' h' :
  run_parser host p f nh h = Some (-1, nh', h') → nh' = nh ∧ h' = h.
Proof.
  destruct p; cbn [run_parser].
  - unfold parse_ethhdr. case_decide; [by intros [= <- <-]|].
    destruct (load_u16 host f _) as [p0|] eqn:E0; [|done].
    apply load_u16_inv in E0 as [_ R0]. cbn [mbind option_bind].
    destruct (proto_is_vlan host p0); [|intros [= -> _ _]; lia].
    destruct (vlan_loop host f _ _ _ _ _) as [[p1 nh1]|] eqn:E1; [|done].
    apply vlan_loop_inv in E1 as [R1 _]. cbn [mbind option_bind].
    intros [= -> _ _]. lia.
  - unfold parse_ip6hdr. case_decide; [by intros [= <- <-]|].
    destruct (load_u8 f _) as [v|] eqn:E; [|done].
    apply load_u8_inv in E. intros [= -> _ _]. lia.
  - unfold parse_iphdr. case_decide; [by intros [= <- <-]|].
    destruct (load_ihl f _) as [ihl|]; [|done]. cbn [mbind option_bind].
    case_decide; [by intros [= <- <-]|].
    destruct (load_u8 f _) as [v|] eqn:E; [|done].
    apply load_u8_inv in E. intros [= -> _ _]. lia.
  - unfold parse_icmp6hdr. case_decide; [by intros [= <- <-]|].
    destruct (load_u8 f _) as [v|] eqn:E; [|done].
    apply load_u8_inv in E. intros [= -> _ _]. lia.
  - unfold parse_icmphdr. case_decide; [by intros [= <- <-]|].
    destruct (load_u8 f _) as [v|] eqn:E; [|done].
    apply load_u8_inv in E. intros [= -> _ _]. lia.
Qed.

(** From a cursor inside the frame every parser returns, and the cursor it
    leaves is inside the frame and not before the one it received. *)
Lemma run_parser_total p nh h :
  0 <= pos nh <= data_end f →
  ∃ r nh' h', run_parser host p f nh h = Some (r, nh', h')
              ∧ pos nh <= pos nh' <= data_end f.
Proof.
  intros [Hlo Hhi]. destruct p; cbn [run_parser].
  - destruct (decide (pos nh + 14 > data_end f)) as [Hf|Hf].
    + rewrite parse_ethhdr_fail by done. eexists _, _, _. split; [done|lia].
    + destruct (parse_ethhdr_ok nh h) as (r & nh' & -> & _ & ?); [lia..|].
      eexists _, _, _. split; [done|lia].
  - destruct (decide (pos nh + 40 > data_end f)) as [Hf|Hf].
    + rewrite parse_ip6hdr_fail by done. eexists _, _, _. split; [done|lia].
    + destruct (parse_ip6hdr_ok f nh h) as (r & _ & _ & ->); [lia..|].
      eexists _, _, _. split; [done|simpl; lia].
  - destruct (decide (pos nh + 20 > data_end f)) as [Hf|Hf].
    + rewrite parse_iphdr_fail_fixed by done. eexists _, _, _. split; [done|lia].
    + destruct (wire_ihl_in_bounds f (pos nh)) as (ihl & E & R); [lia|].
      destruct (decide (pos nh + ihl * 4 > data_end f)) as [Hg|Hg].
      * rewrite (parse_iphdr_fail_full f nh h ihl) by (done || lia).
        eexists _, _, _. split; [done|lia].
      * destruct (parse_iphdr_ok f nh h ihl) as (r & _ & _ & ->); [done || lia..|].
        eexists _, _, _. split; [done|simpl; lia].
  - destruct (decide (pos nh + 8 > data_end f)) as [Hf|Hf].
    + rewrite parse_icmp6hdr_fail by done. eexists _, _, _. split; [done|lia].
    + destruct (parse_icmp6hdr_ok f nh h) as (r & _ & _ & ->); [lia..|].
      eexists _, _, _. split; [done|simpl; lia].
  - destruct (decide (pos nh + 8 > data_end f)) as [Hf|Hf].
    + rewrite parse_icmphdr_fail by done. eexists _, _, _. split; [done|lia].
    + destruct (parse_icmphdr_ok f nh h) as (r & _ & _ & ->); [lia..|].
      eexists _, _, _. split; [done|simpl; lia].
Qed.

End Ethernet.

(** * The classifier *)

Section Classifier.

Context (host : byte_order) (f : frame).

Lemma parity_test w :
  0 <= w →
  (if decide (Z.rem w 2 = 1) then Some XDP_PASS else Some XDP_DROP)
  = Some (parity_action w).
Proof.
  intros Hw. unfold parity_action.
  rewrite Z.rem_mod_nonneg by lia. rewrite Zmod_even.
  by destruct (Z.even w).
Qed.

Lemma ethertypes_differ : bpf_htons host ETH_P_IPV6 ≠ bpf_htons host ETH_P_IP.
Proof. by destruct host. Qed.

(** The sequence number the classifier tests, through a handle [h] whose
    eight bytes fit. *)
Lemma sequence_test h :
  0 <= h → h + 8 <= data_end f →
  ∃ w, wire_u16 f (h + 6) = Some w ∧ 0 <= w < 65536
       ∧ load_u16 host f (h + 6) = Some (bpf_htons host w)
       ∧ bpf_ntohs host (bpf_htons host w) = w.
Proof.
  intros H0 H8.
  destruct (load_u16_in_bounds host f (h + 6)) as (w & E & R & L); [lia..|].
  exists w. by rewrite bpf_ntohs_htons.
Qed.

Lemma xdp_parser_func_ipv6 stats nh1 eth r2 nh2 ip6h :
  parse_ethhdr host f {| pos := 0 |} None
    = Some (bpf_htons host ETH_P_IPV6, nh1, eth) →
  parse_ip6hdr f nh1 None = Some (r2, nh2, ip6h) →
  0 <= pos nh2 →
  fst <$> xdp_parser_func host f stats = Some (l4_verdict f (pos nh2)).
Proof.
  intros E1 E2 Hpos. unfold xdp_parser_func, l4_verdict. rewrite E1.
  cbn [mbind option_bind]. case_decide; [|done].
  rewrite E2. cbn [mbind option_bind].
  case_decide as Hfit.
  - rewrite parse_icmp6hdr_fail by done. cbn [mbind option_bind].
    by case_decide; [|lia].
  - destruct (parse_icmp6hdr_ok f nh2 None) as (v & _ & Rv & ->); [lia..|].
    cbn [mbind option_bind]. case_decide; [lia|].
    unfold offsetof_icmp6_sequence.
    destruct (sequence_test (pos nh2)) as (w & -> & Rw & -> & En); [lia..|].
    cbn [mbind option_bind default]. rewrite En, parity_test by lia. done.
Qed.

Lemma xdp_parser_func_ipv4 stats nh1 eth r2 nh2 iph :
  parse_ethhdr host f {| pos := 0 |} None
    = Some (bpf_htons host ETH_P_IP, nh1, eth) →
  parse_iphdr f nh1 None = Some (r2, nh2, iph) →
  0 <= pos nh2 →
  fst <$> xdp_parser_func host f stats = Some (l4_verdict f (pos nh2)).
Proof.
  intros E1 E2 Hpos. unfold xdp_parser_func, l4_verdict. rewrite E1.
  cbn [mbind option_bind].
  case_decide as Hne; [by apply eq_sym, ethertypes_differ in Hne|].
  case_decide; [|done].
  rewrite E2. cbn [mbind option_bind].
  case_decide as Hfit.
  - rewrite parse_icmphdr_fail by done. cbn [mbind option_bind].
    by case_decide; [|lia].
  - destruct (parse_icmphdr_ok f nh2 None) as (v & _ & Rv & ->); [lia..|].
    cbn [mbind option_bind]. case_decide; [lia|].
    unfold offsetof_echo_sequence.
    destruct (sequence_test (pos nh2)) as (w & -> & Rw & -> & En); [lia..|].
    cbn [mbind option_bind default]. rewrite En, parity_test by lia. done.
Qed.

Lemma xdp_parser_func_other stats r nh1 eth :
  parse_ethhdr host f {| pos := 0 |} None = Some (r, nh1, eth) →
  r ≠ bpf_htons host ETH_P_IPV6 → r ≠ bpf_htons host ETH_P_IP →
  fst <$> xdp_parser_func host f stats = Some XDP_PASS.
Proof.
  intros E1 H6 H4. unfold xdp_parser_func. rewrite E1.
  cbn [mbind option_bind]. by do 2 (case_decide; [done|]).
Qed.

Lemma l4_verdict_cases p : l4_verdict f p = XDP_PASS ∨ l4_verdict f p = XDP_DROP.
Proof.
  unfold l4_verdict, parity_action. case_decide; [by left|].
  destruct (Z.even _); auto.
Qed.

(** The classifier always returns, with [XDP_PASS] or [XDP_DROP]. *)
Lemma xdp_parser_func_returns stats :
  ∃ a, fst <$> xdp_parser_func host f stats = Some a ∧ (a = XDP_PASS ∨ a = XDP_DROP).
Proof.
  destruct (run_parser_total host f ParseEth {| pos := 0 |} None)
    as (r & nh1 & eth & E1 & R1); [simpl; unfold data_end; lia|].
  cbn [run_parser pos] in *.
  destruct (decide (r = bpf_htons host ETH_P_IPV6)) as [->|H6].
  - destruct (run_parser_total host f ParseIp6 nh1 None)
      as (r2 & nh2 & h2 & E2 & R2); [lia|].
    exists (l4_verdict f (pos nh2)). split; [|apply l4_verdict_cases].
    eapply xdp_parser_func_ipv6; [done..|lia].
  - destruct (decide (r = bpf_htons host ETH_P_IP)) as [->|H4].
    + destruct (run_parser_total host f ParseIp nh1 None)
        as (r2 & nh2 & h2 & E2 & R2); [lia|].
      exists (l4_verdict f (pos nh2)). split; [|apply l4_verdict_cases].
      eapply xdp_parser_func_ipv4; [done..|lia].
    + exists XDP_PASS. split; [|by left].
      by eapply xdp_parser_func_other.
Qed.

End Classifier.

(** * Properties of the classifier *)

Lemma fst_fmap_Some {A B} (m : option (A * B)) a :
  fst <$> m = Some a → ∃ b, m = Some (a, b).
Proof. destruct m as [[a' b]|]; [|done]. intros [= <-]. by exists b. Qed.

(** C1: for every frame the classifier terminates and returns an action,
    [XDP_PASS] or [XDP_DROP], and it reads no byte outside the frame: the
    run has a value, which it has only when every load was inside
    [data, data_end). *)
Theorem xdp_parser_func_safe (host : byte_order) (f : frame) (stats : stats_map) :
  ∃ a stats', xdp_parser_func host f stats = Some (a, stats')
              ∧ (a = XDP_PASS ∨ a = XDP_DROP).
Proof.
  destruct (xdp_parser_func_returns host f stats) as (a & E & Ha).
  apply fst_fmap_Some in E as [stats' E]. by exists a, stats'.
Qed.

Lemma echo_frame_verdict host v f stats :
  echo_frame v f = true →
  ∃ s, echo_sequence v f = Some s
       ∧ fst <$> xdp_parser_func host f stats = Some (parity_action s).
Proof.
  unfold echo_sequence. destruct v; cbn [echo_frame l4_offset].
  - rewrite !andb_true_iff, !bool_decide_eq_true.
    intros [[[[[Ety _] Hihl] _] Hfit] _].
    unfold sizeof_ethhdr in *.
    destruct (wire_ihl f 14) as [ihl|] eqn:Eihl; cbn [default from_option id] in *; [|lia].
    assert (0 <= ihl < 16) as Rihl.
    { destruct (wire_ihl_in_bounds f 14) as (i' & E' & R'); [lia|]. congruence. }
    pose proof (parse_ethhdr_untagged host f {| pos := 0 |} None ETH_P_IP) as E1.
    cbn [pos] in E1. specialize (E1 Ety ltac:(lia) ltac:(done) ltac:(done)).
    destruct (parse_iphdr_ok f {| pos := 14 |} None ihl) as (pr & _ & _ & E2);
      cbn [pos]; [lia|done|lia|].
    cbn [pos] in E2.
    destruct (wire_u16_in_bounds f (14 + 4 * ihl + 6)) as (s & Es & Rs); [lia..|].
    exists s. split; [done|].
    rewrite (xdp_parser_func_ipv4 host f stats _ _ _ _ _ E1 E2) by (simpl; lia).
    unfold l4_verdict. cbn [pos]. case_decide; [lia|].
    replace (14 + ihl * 4 + 6) with (14 + 4 * ihl + 6) by lia.
    by rewrite Es.
  - rewrite !andb_true_iff, !bool_decide_eq_true.
    intros [[[[Ety _] _] Hfit] _].
    unfold sizeof_ethhdr, sizeof_ipv6hdr in *.
    pose proof (parse_ethhdr_untagged host f {| pos := 0 |} None ETH_P_IPV6) as E1.
    cbn [pos] in E1. specialize (E1 Ety ltac:(lia) ltac:(done) ltac:(done)).
    destruct (parse_ip6hdr_ok f {| pos := 14 |} None) as (nx & _ & _ & E2);
      cbn [pos]; [lia..|].
    cbn [pos] in E2.
    destruct (wire_u16_in_bounds f (14 + 40 + 6)) as (s & Es & Rs); [lia..|].
    exists s. split; [done|].
    rewrite (xdp_parser_func_ipv6 host f stats _ _ _ _ _ E1 E2) by (simpl; lia).
    unfold l4_verdict. cbn [pos]. case_decide; [lia|].
    by rewrite Es.
Qed.

(** C2: a well-formed untagged Ethernet/IPv4/ICMPv4 echo frame, and a
    well-formed untagged Ethernet/IPv6/ICMPv6 echo frame, carries a sequence
    number S (network byte order on the wire), and the classifier returns
    [XDP_DROP] when S is even and [XDP_PASS] when S is odd; the rule is the
    same for both versions. *)
Theorem echo_parity_rule (host : byte_order) (v : ip_version) (f : frame)
    (stats : stats_map) :
  echo_frame v f = true →
  ∃ s, echo_sequence v f = Some s
       ∧ fst <$> xdp_parser_func host f stats
         = Some (if Z.even s then XDP_DROP else XDP_PASS).
Proof. apply echo_frame_verdict. Qed.

Lemma echo_parity_rule_witness :
  (∃ s, echo_sequence IPv6 frame_v6_echo_seq3 = Some s
        ∧ fst <$> xdp_parser_func LittleEndian frame_v6_echo_seq3 ∅
          = Some (if Z.even s then XDP_DROP else XDP_PASS))
  ∧ (∃ s, echo_sequence IPv4 frame_v4_echo_seq1 = Some s
          ∧ fst <$> xdp_parser_func BigEndian frame_v4_echo_seq1 ∅
            = Some (if Z.even s then XDP_DROP else XDP_PASS)).
Proof.
  split.
  - apply (echo_parity_rule LittleEndian IPv6 frame_v6_echo_seq3 ∅). reflexivity.
  - apply (echo_parity_rule BigEndian IPv4 frame_v4_echo_seq1 ∅). reflexivity.
Defined.

(** The cursor after a single VLAN tag: the loop leaves on the first
    encapsulated protocol that is not a VLAN TPID before it moves the cursor,
    so the cursor stays at the tag (offset 14), not behind it (offset 18). *)
Lemma parse_ethhdr_single_tag host (f : frame) w0 w1 :
  wire_u16 f 12 = Some w0 → w0 = ETH_P_8021Q ∨ w0 = ETH_P_8021AD →
  wire_u16 f 16 = Some w1 → w1 ≠ ETH_P_8021Q → w1 ≠ ETH_P_8021AD →
  parse_ethhdr host f {| pos := 0 |} None
  = Some (bpf_htons host w1, {| pos := 14 |}, Some 0).
Proof.
  intros E0 Hv E1 Hq Had.
  pose proof (wire_u16_inv _ _ _ E0) as [_ R0].
  pose proof (wire_u16_inv _ _ _ E1) as [[_ Hfit] R1].
  unfold parse_ethhdr, sizeof_ethhdr, offsetof_h_proto. cbn [pos].
  case_decide; [lia|]. change (0 + 12) with 12. rewrite load_u16_wire, E0.
  cbn [fmap option_fmap option_map mbind option_bind].
  rewrite proto_is_vlan_wire by done.
  replace (bool_decide (w0 = ETH_P_8021Q) || bool_decide (w0 = ETH_P_8021AD))
    with true by (destruct Hv as [-> | ->]; done).
  change (Z.to_nat VLAN_MAX_DEPTH) with 2%nat. cbn [vlan_loop].
  unfold sizeof_vlan_hdr, offsetof_h_vlan_encapsulated_proto.
  case_decide; [lia|].
  replace (0 + 14 + 0 * 4 + 2) with 16 by lia.
  rewrite (load_u16_wire host f 16), E1.
  cbn [fmap option_fmap option_map mbind option_bind].
  rewrite proto_is_vlan_wire by done.
  by rewrite !bool_decide_eq_false_2.
Qed.

(** C3: VLAN transparency does not hold on the code.  The untagged IPv6 echo
    frame with sequence number 4 is dropped; the same frame behind one
    802.1Q tag, and behind an 802.1AD and an 802.1Q tag, is passed, on either
    host: the L2 parse of a tagged frame returns the IPv6 EtherType with the
    cursor still at the last tag (offset 14 with one tag, 18 with two), so
    the parity test reads the ICMPv6 checksum instead of the sequence
    number. *)
Theorem vlan_tag_changes_action :
  let tagged := insert_vlan_tag TPID_8021Q [x00; x00] frame_v6_echo_seq4 in
  let tagged2 := insert_vlan_tag TPID_8021AD [x00; x00] tagged in
  classify LittleEndian frame_v6_echo_seq4 = Some XDP_DROP
  ∧ classify LittleEndian tagged = Some XDP_PASS
  ∧ classify LittleEndian tagged2 = Some XDP_PASS
  ∧ classify BigEndian frame_v6_echo_seq4 = Some XDP_DROP
  ∧ classify BigEndian tagged = Some XDP_PASS
  ∧ classify BigEndian tagged2 = Some XDP_PASS
  ∧ parse_ethhdr LittleEndian tagged {| pos := 0 |} None
    = Some (bpf_htons LittleEndian ETH_P_IPV6, {| pos := 14 |}, Some 0)
  ∧ parse_ethhdr LittleEndian tagged2 {| pos := 0 |} None
    = Some (bpf_htons LittleEndian ETH_P_IPV6, {| pos := 18 |}, Some 0).
Proof. vm_compute. repeat split. Qed.

(** C4: truncation can produce a drop on the code.  The IPv6 echo frame with
    sequence number 3 is passed; its 22-byte prefix is dropped, on either
    host: [parse_ip6hdr] fails, its return value is not tested, and
    [parse_icmp6hdr] then accepts the first eight bytes of the IPv6 header,
    whose bytes 6 and 7 (next header, hop limit) are tested for parity. *)
Theorem truncation_yields_drop :
  (22 <= length frame_v6_echo_seq3)%nat
  ∧ classify LittleEndian frame_v6_echo_seq3 = Some XDP_PASS
  ∧ classify LittleEndian (take 22 frame_v6_echo_seq3) = Some XDP_DROP
  ∧ classify BigEndian frame_v6_echo_seq3 = Some XDP_PASS
  ∧ classify BigEndian (take 22 frame_v6_echo_seq3) = Some XDP_DROP
  ∧ parse_ip6hdr (take 22 frame_v6_echo_seq3) {| pos := 14 |} None
    = Some (-1, {| pos := 14 |}, None).
Proof. vm_compute. repeat split; try done. lia. Qed.

(** C5: a frame whose next header is not ICMPv6 can be dropped on the code.
    The untagged IPv6 frame that carries a TCP SYN segment has its 40-byte
    IPv6 header in bounds, [parse_ip6hdr] returns 6, not 58, and the
    classifier returns [XDP_DROP], on either host: the value returned by
    [parse_ip6hdr] is not tested. *)
Theorem non_icmp6_frame_dropped :
  wire_u16 frame_v6_tcp 12 = Some ETH_P_IPV6
  ∧ 14 + sizeof_ipv6hdr <= data_end frame_v6_tcp
  ∧ parse_ip6hdr frame_v6_tcp {| pos := 14 |} None
    = Some (6, {| pos := 54 |}, Some 14)
  ∧ 6 ≠ IPPROTO_ICMPV6
  ∧ classify LittleEndian frame_v6_tcp = Some XDP_DROP
  ∧ classify BigEndian frame_v6_tcp = Some XDP_DROP.
Proof. vm_compute. repeat split; done. Qed.

(** C6, as stated, fails: the 20-byte IPv4 header whose IHL field is 2 is
    accepted.  Its fixed prefix fits, the IHL is below 5, and [parse_iphdr]
    returns the protocol field, not -1, with the cursor advanced by 8. *)
Lemma parse_iphdr_accepts_ihl2 :
  pos {| pos := 0 |} + sizeof_iphdr <= data_end ip4_header_ihl2
  ∧ load_ihl ip4_header_ihl2 0 = Some 2
  ∧ 2 < 5
  ∧ parse_iphdr ip4_header_ihl2 {| pos := 0 |} None
    = Some (IPPROTO_ICMP, {| pos := 8 |}, Some 0)
  ∧ IPPROTO_ICMP ≠ -1.
Proof. vm_compute. repeat split; done. Qed.

(** C6, amended: when the fixed 20-byte prefix fits and the IHL field is
    below 5, the computed header length [ihl * 4] lies within the 20 bytes
    already checked, the second bounds check succeeds, and the parser
    returns the protocol field (never -1) with the cursor advanced by
    [ihl * 4] bytes: bounds checking rejects no IHL value below 5. *)
Theorem parse_iphdr_short_ihl (f : frame) (nh : hdr_cursor) (iph : option Z)
    (ihl : Z) :
  pos nh + sizeof_iphdr <= data_end f →
  load_ihl f (pos nh) = Some ihl →
  ihl < 5 →
  pos nh + ihl * 4 <= data_end f
  ∧ ∃ protocol,
      load_u8 f (pos nh + offsetof_protocol) = Some protocol
      ∧ protocol ≠ -1
      ∧ parse_iphdr f nh iph
        = Some (protocol, {| pos := pos nh + ihl * 4 |}, Some (pos nh)).
Proof.
  unfold sizeof_iphdr, offsetof_protocol. rewrite load_ihl_wire.
  intros Hfit E Hshort.
  assert (pos nh + ihl * 4 <= data_end f) as Hfull by lia.
  split; [done|].
  destruct (parse_iphdr_ok f nh iph ihl Hfit E Hfull) as (v & Ev & Rv & Ep).
  exists v. split; [done|]. split; [lia|done].
Qed.

Lemma parse_iphdr_short_ihl_witness :
  0 + 2 * 4 <= data_end ip4_header_ihl2
  ∧ ∃ protocol,
      load_u8 ip4_header_ihl2 (0 + offsetof_protocol) = Some protocol
      ∧ protocol ≠ -1
      ∧ parse_iphdr ip4_header_ihl2 {| pos := 0 |} None
        = Some (protocol, {| pos := 0 + 2 * 4 |}, Some 0).
Proof.
  apply (parse_iphdr_short_ihl ip4_header_ihl2 {| pos := 0 |} None 2).
  - vm_compute. discriminate.
  - reflexivity.
  - lia.
Defined.

(** C7: after every parser call, successful or not, made with the cursor
    inside the frame, the parser has returned and the cursor is inside the
    frame: [data <= pos <= data_end], where [data] is offset 0. *)
Theorem parser_cursor_in_bounds (host : byte_order) (p : parser) (f : frame)
    (nh : hdr_cursor) (h : option Z) :
  0 <= pos nh <= data_end f →
  ∃ r nh' h', run_parser host p f nh h = Some (r, nh', h')
              ∧ 0 <= pos nh' <= data_end f.
Proof.
  intros Hin.
  destruct (run_parser_total host f p nh h Hin) as (r & nh' & h' & E & R).
  exists r, nh', h'. split; [done|lia].
Qed.

Lemma parser_cursor_in_bounds_witness :
  (∃ r nh' h', run_parser LittleEndian ParseEth frame_v4_echo_seq1
                 {| pos := 0 |} None = Some (r, nh', h')
               ∧ 0 <= pos nh' <= data_end frame_v4_echo_seq1)
  ∧ (∃ r nh' h', run_parser LittleEndian ParseIp frame_v4_echo_seq1
                   {| pos := 14 |} None = Some (r, nh', h')
                 ∧ 0 <= pos nh' <= data_end frame_v4_echo_seq1)
  ∧ (∃ r nh' h', run_parser LittleEndian ParseIp6 frame_v4_echo_seq1
                   {| pos := 14 |} None = Some (r, nh', h')
                 ∧ 0 <= pos nh' <= data_end frame_v4_echo_seq1).
Proof.
  repeat split.
  - apply (parser_cursor_in_bounds LittleEndian ParseEth frame_v4_echo_seq1
             {| pos := 0 |} None).
    vm_compute. split; discriminate.
  - apply (parser_cursor_in_bounds LittleEndian ParseIp frame_v4_echo_seq1
             {| pos := 14 |} None).
    vm_compute. split; discriminate.
  - apply (parser_cursor_in_bounds LittleEndian ParseIp6 frame_v4_echo_seq1
             {| pos := 14 |} None).
    vm_compute. split; discriminate.
Defined.

Lemma parse_ethhdr_fails_iff host (f : frame) r nh' eth :
  parse_ethhdr host f {| pos := 0 |} None = Some (r, nh', eth) →
  r = -1 ↔ data_end f < sizeof_ethhdr.
Proof.
  intros E. unfold sizeof_ethhdr.
  destruct (decide (0 + 14 > data_end f)) as [Hf|Hf].
  - rewrite (parse_ethhdr_fail host f {| pos := 0 |} None Hf) in E.
    injection E as <- _ _. split; [lia|done].
  - destruct (parse_ethhdr_ok host f {| pos := 0 |} None)
      as (r' & nh1 & E' & R' & _); cbn [pos]; [lia..|].
    rewrite E' in E. injection E as <- _ _. lia.
Qed.

(** C8: a frame whose L2 parse fails (it returns -1, which happens exactly
    when the 14-byte Ethernet header does not fit), and a frame whose L2
    parse returns an EtherType that is neither IPv4 (0x0800) nor IPv6
    (0x86DD), is passed. *)
Theorem unclassified_frames_pass (host : byte_order) (f : frame)
    (stats : stats_map) (r : Z) (nh' : hdr_cursor) (eth : option Z) :
  parse_ethhdr host f {| pos := 0 |} None = Some (r, nh', eth) →
  r = -1 ∨ (bpf_ntohs host r ≠ ETH_P_IP ∧ bpf_ntohs host r ≠ ETH_P_IPV6) →
  fst <$> xdp_parser_func host f stats = Some XDP_PASS
  ∧ (r = -1 ↔ data_end f < sizeof_ethhdr).
Proof.
  intros E Hr. split; [|by eapply parse_ethhdr_fails_iff].
  eapply xdp_parser_func_other; [done|..]; intros ->.
  - destruct Hr as [Hr|[_ Hr]]; [by destruct host|].
    by rewrite bpf_ntohs_htons in Hr.
  - destruct Hr as [Hr|[Hr _]]; [by destruct host|].
    by rewrite bpf_ntohs_htons in Hr.
Qed.

Lemma unclassified_frames_pass_witness :
  (fst <$> xdp_parser_func LittleEndian (replicate 13 xff) ∅ = Some XDP_PASS
   ∧ (-1 = -1 ↔ data_end (replicate 13 xff) < sizeof_ethhdr))
  ∧ (fst <$> xdp_parser_func LittleEndian frame_arp ∅ = Some XDP_PASS
     ∧ (0x0608 = -1 ↔ data_end frame_arp < sizeof_ethhdr)).
Proof.
  split.
  - apply (unclassified_frames_pass LittleEndian (replicate 13 xff) ∅
             (-1) {| pos := 0 |} None).
    + reflexivity.
    + left. reflexivity.
  - apply (unclassified_frames_pass LittleEndian frame_arp ∅
             0x0608 {| pos := 14 |} (Some 0)).
    + reflexivity.
    + right. vm_compute. split; discriminate.
Defined.

Lemma parse_l3_total v (f : frame) nh h :
  0 <= pos nh <= data_end f →
  ∃ r nh' h', parse_l3 v f nh h = Some (r, nh', h')
              ∧ pos nh <= pos nh' <= data_end f.
Proof.
  intros Hin. destruct v.
  - apply (run_parser_total LittleEndian f ParseIp nh h Hin).
  - apply (run_parser_total LittleEndian f ParseIp6 nh h Hin).
Qed.

Lemma l4_verdict_fits (f : frame) p :
  0 <= p → p + 8 <= data_end f →
  ∃ w, wire_u16 f (p + 6) = Some w ∧ l4_verdict f p = parity_action w.
Proof.
  intros H0 H8. destruct (wire_u16_in_bounds f (p + 6)) as (w & E & _); [lia..|].
  exists w. split; [done|]. unfold l4_verdict. case_decide; [lia|]. by rewrite E.
Qed.

(** C9: the classifier tests neither the protocol / next-header value nor the
    ICMP type.  Whenever the L2 parse returns the IPv4 or the IPv6 EtherType
    and eight bytes fit at the cursor the L3 parser leaves (whatever that
    parser returned), the action is the parity rule on the big-endian 16-bit
    field at bytes 6 and 7 from that cursor. *)
Theorem verdict_ignores_l4_protocol (host : byte_order) (v : ip_version)
    (f : frame) (stats : stats_map) (nh1 : hdr_cursor) (eth : option Z)
    (r2 : Z) (nh2 : hdr_cursor) (h2 : option Z) :
  parse_ethhdr host f {| pos := 0 |} None
    = Some (bpf_htons host (ethertype_of v), nh1, eth) →
  parse_l3 v f nh1 None = Some (r2, nh2, h2) →
  pos nh2 + 8 <= data_end f →
  ∃ w, wire_u16 f (pos nh2 + 6) = Some w
       ∧ fst <$> xdp_parser_func host f stats
         = Some (if Z.even w then XDP_DROP else XDP_PASS).
Proof.
  intros E1 E2 Hfit.
  destruct (run_parser_total host f ParseEth {| pos := 0 |} None)
    as (r & nh1' & eth' & E1' & R1); [simpl; unfold data_end; lia|].
  cbn [run_parser pos] in *. rewrite E1 in E1'. injection E1' as _ <- _.
  destruct (parse_l3_total v f nh1 None) as (r2' & nh2' & h2' & E2' & R2); [lia|].
  rewrite E2 in E2'. injection E2' as _ <- _.
  destruct (l4_verdict_fits f (pos nh2)) as (w & Ew & Hv); [lia..|].
  exists w. split; [done|]. fold (parity_action w). rewrite <- Hv.
  destruct v; cbn [ethertype_of parse_l3] in *.
  - eapply xdp_parser_func_ipv4; [done..|lia].
  - eapply xdp_parser_func_ipv6; [done..|lia].
Qed.

Lemma verdict_ignores_l4_protocol_witness :
  ∃ w, wire_u16 frame_v6_tcp (pos {| pos := 54 |} + 6) = Some w
       ∧ fst <$> xdp_parser_func LittleEndian frame_v6_tcp ∅
         = Some (if Z.even w then XDP_DROP else XDP_PASS).
Proof.
  apply (verdict_ignores_l4_protocol LittleEndian IPv6 frame_v6_tcp ∅
           {| pos := 14 |} (Some 0) 6 {| pos := 54 |} (Some 14)).
  - reflexivity.
  - reflexivity.
  - vm_compute. discriminate.
Defined.

(** C10: every parser is atomic on failure.  Whenever [parse_ethhdr],
    [parse_ip6hdr], [parse_iphdr], [parse_icmp6hdr] or [parse_icmphdr]
    returns -1, the cursor is the one it received and the caller's header
    handle has not been written. *)
Theorem parser_failure_atomic (host : byte_order) (p : parser) (f : frame)
    (nh : hdr_cursor) (h : option Z) (nh' : hdr_cursor) (h' : option Z) :
  run_parser host p f nh h = Some (-1, nh', h') → nh' = nh ∧ h' = h.
Proof. apply run_parser_fail_inv. Qed.

Lemma parser_failure_atomic_witness :
  ({| pos := 0 |} = {| pos := 0 |} ∧ @None Z = None)
  ∧ ({| pos := 14 |} = {| pos := 14 |} ∧ @None Z = None)
  ∧ ({| pos := 14 |} = {| pos := 14 |} ∧ Some 7 = Some 7)
  ∧ ({| pos := 16 |} = {| pos := 16 |} ∧ @None Z = None)
  ∧ ({| pos := 16 |} = {| pos := 16 |} ∧ @None Z = None).
Proof.
  split; [|split; [|split; [|split]]].
  - apply (parser_failure_atomic LittleEndian ParseEth (replicate 13 xff)
             {| pos := 0 |} None {| pos := 0 |} None). reflexivity.
  - apply (parser_failure_atomic LittleEndian ParseIp6
             (take 22 frame_v6_echo_seq3) {| pos := 14 |} None). reflexivity.
  - apply (parser_failure_atomic LittleEndian ParseIp
             (take 30 frame_v4_echo_seq1) {| pos := 14 |} (Some 7)). reflexivity.
  - apply (parser_failure_atomic BigEndian ParseIcmp6
             (take 22 frame_v6_echo_seq3) {| pos := 16 |} None). reflexivity.
  - apply (parser_failure_atomic BigEndian ParseIcmp
             (take 22 frame_v4_echo_seq1) {| pos := 16 |} None). reflexivity.
Defined.

(** * Further properties of the parsers *)

Section Wire.

Context (f : frame).

Lemma proto_is_vlan_tpid host w :
  0 <= w < 65536 → proto_is_vlan host (bpf_htons host w) = vlan_tpid w.
Proof. apply proto_is_vlan_wire. Qed.

Lemma vlan_tpid_true w : vlan_tpid w = true ↔ w = ETH_P_8021Q ∨ w = ETH_P_8021AD.
Proof.
  unfold vlan_tpid. by rewrite orb_true_iff, !bool_decide_eq_true.
Qed.

(** The loop computes, from the wire values, a result that does not depend
    on the host; the host only decides how the EtherType is represented. *)
Lemma vlan_loop_wire vh n : ∀ i w nh,
  0 <= w < 65536 →
  ∃ res : option (Z * hdr_cursor),
    (∀ host, vlan_loop host f vh n i (bpf_htons host w) nh
             = (λ '(w', c), (bpf_htons host w', c)) <$> res)
    ∧ (∀ w' c, res = Some (w', c) → 0 <= w' < 65536).
Proof.
  induction n as [|n IH]; intros i w nh Hw.
  - exists (Some (w, nh)). split; [done|]. by intros ? ? [= <- <-].
  - destruct (decide (vh + i * sizeof_vlan_hdr + sizeof_vlan_hdr > data_end f))
      as [Hout|Hin].
    { exists (Some (w, nh)). split; [|by intros ? ? [= <- <-]].
      intros host. cbn [vlan_loop]. by rewrite decide_True. }
    destruct (wire_u16 f (vh + i * sizeof_vlan_hdr
                          + offsetof_h_vlan_encapsulated_proto)) as [w1|] eqn:E.
    + pose proof (wire_u16_inv _ _ _ E) as [_ R1].
      destruct (vlan_tpid w1) eqn:Ev.
      * destruct (IH (i + 1) w1
                    {| pos := vh + i * sizeof_vlan_hdr + sizeof_vlan_hdr |} R1)
          as (res & Hres & Hr).
        exists res. split; [|done]. intros host. cbn [vlan_loop].
        rewrite decide_False, load_u16_wire, E by done.
        cbn [fmap option_fmap option_map mbind option_bind].
        rewrite proto_is_vlan_tpid, Ev by done. cbn [negb]. apply Hres.
      * exists (Some (w1, nh)). split; [|by intros ? ? [= <- <-]].
        intros host. cbn [vlan_loop].
        rewrite decide_False, load_u16_wire, E by done.
        cbn [fmap option_fmap option_map mbind option_bind].
        by rewrite proto_is_vlan_tpid, Ev.
    + exists None. split; [|done]. intros host. cbn [vlan_loop].
      by rewrite decide_False, load_u16_wire, E.
Qed.

Lemma parse_ethhdr_wire nh h :
  ∃ res : option (option Z * hdr_cursor * option Z),
    (∀ host, parse_ethhdr host f nh h
             = (λ '(ow, c, e), (host_retval host ow, c, e)) <$> res)
    ∧ (∀ w c e, res = Some (Some w, c, e) → 0 <= w < 65536).
Proof.
  destruct (decide (pos nh + sizeof_ethhdr > data_end f)) as [Hout|Hin].
  { exists (Some (None, nh, h)). split; [|done].
    intros host. unfold parse_ethhdr. by rewrite decide_True. }
  destruct (wire_u16 f (pos nh + offsetof_h_proto)) as [w0|] eqn:E.
  - pose proof (wire_u16_inv _ _ _ E) as [_ R0].
    destruct (vlan_tpid w0) eqn:Ev.
    + destruct (vlan_loop_wire (pos nh + sizeof_ethhdr) (Z.to_nat VLAN_MAX_DEPTH)
                  0 w0 {| pos := pos nh + sizeof_ethhdr |} R0)
        as (res & Hres & Hr).
      exists ((λ '(w', c), (Some w', c, Some (pos nh))) <$> res). split.
      * intros host. unfold parse_ethhdr.
        rewrite decide_False, load_u16_wire, E by done.
        cbn [fmap option_fmap option_map mbind option_bind pos].
        rewrite proto_is_vlan_tpid, Ev, Hres by done.
        by destruct res as [[w' c]|].
      * intros w c e. destruct res as [[w' c']|]; [|done].
        intros [= <- <- <-]. by eapply Hr.
    + exists (Some (Some w0, {| pos := pos nh + sizeof_ethhdr |}, Some (pos nh))).
      split; [|by intros ? ? ? [= <- <- <-]].
      intros host. unfold parse_ethhdr.
      rewrite decide_False, load_u16_wire, E by done.
      cbn [fmap option_fmap option_map mbind option_bind].
      by rewrite proto_is_vlan_tpid, Ev.
  - exists None. split; [|done]. intros host. unfold parse_ethhdr.
    by rewrite decide_False, load_u16_wire, E.
Qed.

End Wire.

Section Verdicts.

Context (f : frame).

(** The action is computed from the wire values alone. *)
Lemma xdp_parser_func_wire stats :
  ∃ o : option xdp_action, ∀ host, fst <$> xdp_parser_func host f stats = o.
Proof.
  destruct (parse_ethhdr_wire f {| pos := 0 |} None) as (res & Hres & Hr).
  destruct (run_parser_total LittleEndian f ParseEth {| pos := 0 |} None)
    as (r & nh1 & eth & E1 & R1); [simpl; unfold data_end; lia|].
  cbn [run_parser pos] in *. rewrite Hres in E1.
  destruct res as [[[ow c] e]|]; [|done].
  injection E1 as _ -> ->.
  destruct ow as [w|]; cycle 1.
  { exists (Some XDP_PASS). intros host.
    eapply xdp_parser_func_other; [by rewrite Hres|..]; by destruct host. }
  pose proof (Hr w nh1 eth eq_refl) as Rw.
  destruct (decide (w = ETH_P_IPV6)) as [->|H6].
  { destruct (run_parser_total LittleEndian f ParseIp6 nh1 None)
      as (r2 & nh2 & h2 & E2 & R2); [lia|].
    exists (Some (l4_verdict f (pos nh2))). intros host.
    eapply xdp_parser_func_ipv6; [by rewrite Hres|done|lia]. }
  destruct (decide (w = ETH_P_IP)) as [->|H4].
  { destruct (run_parser_total LittleEndian f ParseIp nh1 None)
      as (r2 & nh2 & h2 & E2 & R2); [lia|].
    exists (Some (l4_verdict f (pos nh2))). intros host.
    eapply xdp_parser_func_ipv4; [by rewrite Hres|done|lia]. }
  exists (Some XDP_PASS). intros host.
  eapply xdp_parser_func_other; [by rewrite Hres|..]; cbn [host_retval];
    intros Heq; apply bpf_htons_inj in Heq; done.
Qed.

(** Either the frame is passed without an L4 test, or the L4 test runs with
    the cursor at least 14 bytes into the frame. *)
Lemma xdp_verdict_shape host stats :
  fst <$> xdp_parser_func host f stats = Some XDP_PASS
  ∨ ∃ p, 14 <= p <= data_end f
         ∧ fst <$> xdp_parser_func host f stats = Some (l4_verdict f p).
Proof.
  destruct (decide (0 + 14 > data_end f)) as [Hout|Hin].
  { left. eapply xdp_parser_func_other;
      [by apply parse_ethhdr_fail|..]; by destruct host. }
  destruct (parse_ethhdr_ok host f {| pos := 0 |} None)
    as (r & nh1 & E1 & Rr & R1); cbn [pos] in *; [lia..|].
  destruct (decide (r = bpf_htons host ETH_P_IPV6)) as [->|H6].
  { destruct (run_parser_total host f ParseIp6 nh1 None)
      as (r2 & nh2 & h2 & E2 & R2); [lia|].
    right. exists (pos nh2). split; [lia|].
    eapply xdp_parser_func_ipv6; [done..|lia]. }
  destruct (decide (r = bpf_htons host ETH_P_IP)) as [->|H4].
  { destruct (run_parser_total host f ParseIp nh1 None)
      as (r2 & nh2 & h2 & E2 & R2); [lia|].
    right. exists (pos nh2). split; [lia|].
    eapply xdp_parser_func_ipv4; [done..|lia]. }
  left. by eapply xdp_parser_func_other.
Qed.

(** Two VLAN TPIDs in a row: the loop runs to its second iteration. *)
Lemma parse_ethhdr_two_tags host w0 w1 w2 :
  wire_u16 f 12 = Some w0 → vlan_tpid w0 = true →
  wire_u16 f 16 = Some w1 → vlan_tpid w1 = true →
  wire_u16 f 20 = Some w2 →
  parse_ethhdr host f {| pos := 0 |} None
  = Some (bpf_htons host w2,
          {| pos := if vlan_tpid w2 then 22 else 18 |}, Some 0).
Proof.
  intros E0 V0 E1 V1 E2.
  pose proof (wire_u16_inv _ _ _ E0) as [_ R0].
  pose proof (wire_u16_inv _ _ _ E1) as [_ R1].
  pose proof (wire_u16_inv _ _ _ E2) as [[_ Hfit] R2].
  unfold parse_ethhdr, sizeof_ethhdr, offsetof_h_proto. cbn [pos].
  rewrite decide_False by lia. change (0 + 12) with 12.
  rewrite load_u16_wire, E0.
  cbn [fmap option_fmap option_map mbind option_bind].
  rewrite proto_is_vlan_tpid, V0 by done.
  change (Z.to_nat VLAN_MAX_DEPTH) with 2%nat. cbn [vlan_loop].
  unfold sizeof_vlan_hdr, offsetof_h_vlan_encapsulated_proto.
  rewrite !decide_False by lia.
  replace (0 + 14 + 0 * 4 + 2) with 16 by lia.
  replace (0 + 14 + (0 + 1) * 4 + 2) with 20 by lia.
  rewrite (load_u16_wire host f 16), E1.
  cbn [fmap option_fmap option_map mbind option_bind].
  rewrite proto_is_vlan_tpid, V1 by done. cbn [negb].
  rewrite decide_False by lia.
  rewrite (load_u16_wire host f 20), E2.
  cbn [fmap option_fmap option_map mbind option_bind].
  rewrite proto_is_vlan_tpid by done.
  destruct (vlan_tpid w2); reflexivity.
Qed.

End Verdicts.

Section Success.

Context (host : byte_order) (f : frame).

(** The cursor the two-iteration loop can leave. *)
Lemma vlan_loop_cursor vh proto nh p' nh' :
  vlan_loop host f vh (Z.to_nat VLAN_MAX_DEPTH) 0 proto nh = Some (p', nh') →
  nh' = nh ∨ pos nh' = vh + 4 ∨ pos nh' = vh + 8.
Proof.
  change (Z.to_nat VLAN_MAX_DEPTH) with 2%nat. cbn [vlan_loop].
  unfold sizeof_vlan_hdr, offsetof_h_vlan_encapsulated_proto.
  case_decide; [intros [= _ <-]; auto|].
  destruct (load_u16 host f (vh + 0 * 4 + 2)) as [p1|]; [|done].
  cbn [mbind option_bind].
  destruct (proto_is_vlan host p1); cbn [negb]; [|intros [= _ <-]; auto].
  case_decide; [intros [= _ <-]; simpl; right; left; lia|].
  destruct (load_u16 host f _) as [p2|]; [|done]. cbn [mbind option_bind].
  destruct (proto_is_vlan host p2); cbn [negb]; intros [= _ <-]; simpl.
  - right. right. lia.
  - right. left. lia.
Qed.

(** What a successful parse has established. *)
Lemma run_parser_success_inv p nh h r nh' h' :
  run_parser host p f nh h = Some (r, nh', h') → r ≠ -1 →
  h' = Some (pos nh)
  ∧ pos nh + header_size p <= data_end f
  ∧ pos nh' <= data_end f
  ∧ match p with
    | ParseEth =>
        pos nh' = pos nh + 14 ∨ pos nh' = pos nh + 18 ∨ pos nh' = pos nh + 22
    | ParseIp6 => pos nh' = pos nh + 40
    | ParseIp =>
        ∃ ihl, wire_ihl f (pos nh) = Some ihl ∧ 0 <= ihl <= 15
               ∧ pos nh' = pos nh + 4 * ihl
    | ParseIcmp6 | ParseIcmp => pos nh' = pos nh + 8
    end.
Proof.
  destruct p; cbn [run_parser header_size].
  - unfold parse_ethhdr, sizeof_ethhdr.
    case_decide as Hfit; [by intros [= <- _ _]|].
    destruct (load_u16 host f _) as [p0|]; [|done]. cbn [mbind option_bind pos].
    destruct (proto_is_vlan host p0).
    + destruct (vlan_loop host f _ _ _ _ _) as [[p1 nh1]|] eqn:E1; [|done].
      cbn [mbind option_bind]. intros [= _ <- <-] _.
      pose proof (vlan_loop_inv _ _ _ _ _ _ _ _ _ E1) as [_ Hb].
      apply vlan_loop_cursor in E1.
      split; [done|]. split; [lia|].
      split; [destruct Hb as [->|Hb]; simpl; lia|].
      destruct E1 as [->|[E1|E1]]; simpl; lia.
    + intros [= _ <- <-] _. simpl. split; [done|]. split; [lia|].
      split; [lia|]. by left.
  - unfold parse_ip6hdr, sizeof_ipv6hdr.
    case_decide as Hfit; [by intros [= <- _ _]|].
    destruct (load_u8 f _) as [v|]; [|done].
    intros [= _ <- <-] _. simpl. split; [done|]. lia.
  - unfold parse_iphdr, sizeof_iphdr.
    case_decide as Hfit; [by intros [= <- _ _]|].
    rewrite load_ihl_wire.
    destruct (wire_ihl f (pos nh)) as [ihl|] eqn:Ei; [|done].
    cbn [mbind option_bind].
    case_decide as Hfull; [by intros [= <- _ _]|].
    destruct (load_u8 f _) as [v|]; [|done].
    intros [= _ <- <-] _. simpl. split; [done|]. split; [lia|]. split; [lia|].
    exists ihl. split; [done|]. split; [|lia].
    unfold wire_ihl in Ei. destruct (load_u8 f (pos nh)) as [b|]; [|done].
    injection Ei as <-. pose proof (Z.mod_pos_bound b 16 ltac:(lia)). lia.
  - unfold parse_icmp6hdr, sizeof_icmp6hdr.
    case_decide as Hfit; [by intros [= <- _ _]|].
    destruct (load_u8 f _) as [v|]; [|done].
    intros [= _ <- <-] _. simpl. split; [done|]. lia.
  - unfold parse_icmphdr, sizeof_icmphdr.
    case_decide as Hfit; [by intros [= <- _ _]|].
    destruct (load_u8 f _) as [v|]; [|done].
    intros [= _ <- <-] _. simpl. split; [done|]. lia.
Qed.

End Success.

(** X1: [proto_is_vlan], applied to a two-byte field as the host loads it,
    holds exactly when the field on the wire is 0x8100 or 0x88A8, whatever
    the byte order of the host. *)
Theorem proto_is_vlan_on_wire (host : byte_order) (f : frame) (p x : Z) :
  load_u16 host f p = Some x →
  proto_is_vlan host x = true
  ↔ wire_u16 f p = Some ETH_P_8021Q ∨ wire_u16 f p = Some ETH_P_8021AD.
Proof.
  rewrite load_u16_wire. destruct (wire_u16 f p) as [w|] eqn:E; [|done].
  intros [= <-]. apply wire_u16_inv in E as [_ Rw].
  rewrite proto_is_vlan_tpid, vlan_tpid_true by done.
  split; (intros [H|H]; [left|right]; congruence).
Qed.

Lemma proto_is_vlan_on_wire_witness :
  proto_is_vlan LittleEndian 0xa888 = true
  ↔ wire_u16 frame_v6_two_tags 12 = Some ETH_P_8021Q
    ∨ wire_u16 frame_v6_two_tags 12 = Some ETH_P_8021AD.
Proof.
  apply (proto_is_vlan_on_wire LittleEndian frame_v6_two_tags 12 0xa888).
  reflexivity.
Defined.

(** X2: how far a successful parser moves the cursor.  [parse_ethhdr]
    advances by 14, 18 or 22 bytes, never past more than VLAN_MAX_DEPTH
    tags; [parse_ip6hdr] by 40; [parse_iphdr] by four times the IHL
    nibble, between 0 and 60; the ICMP parsers by 8. *)
Theorem parser_advance (host : byte_order) (p : parser) (f : frame)
    (nh : hdr_cursor) (h : option Z) (r : Z) (nh' : hdr_cursor) (h' : option Z) :
  run_parser host p f nh h = Some (r, nh', h') → r ≠ -1 →
  match p with
  | ParseEth =>
      pos nh' = pos nh + 14 ∨ pos nh' = pos nh + 18 ∨ pos nh' = pos nh + 22
  | ParseIp6 => pos nh' = pos nh + 40
  | ParseIp =>
      ∃ ihl, wire_ihl f (pos nh) = Some ihl ∧ 0 <= ihl <= 15
             ∧ pos nh' = pos nh + 4 * ihl
  | ParseIcmp6 | ParseIcmp => pos nh' = pos nh + 8
  end.
Proof.
  intros E Hr. by destruct (run_parser_success_inv host f p nh h r nh' h' E Hr)
    as (_ & _ & _ & ?).
Qed.

Lemma parser_advance_witness :
  (pos {| pos := 22 |} = pos {| pos := 0 |} + 14
   ∨ pos {| pos := 22 |} = pos {| pos := 0 |} + 18
   ∨ pos {| pos := 22 |} = pos {| pos := 0 |} + 22)
  ∧ (∃ ihl, wire_ihl frame_v4_echo_seq1 (pos {| pos := 14 |}) = Some ihl
            ∧ 0 <= ihl <= 15
            ∧ pos {| pos := 34 |} = pos {| pos := 14 |} + 4 * ihl).
Proof.
  split.
  - apply (parser_advance BigEndian ParseEth frame_v6_three_tags
             {| pos := 0 |} None 0x8100 {| pos := 22 |} (Some 0)).
    + reflexivity.
    + discriminate.
  - apply (parser_advance BigEndian ParseIp frame_v4_echo_seq1
             {| pos := 14 |} None 1 {| pos := 34 |} (Some 14)).
    + reflexivity.
    + discriminate.
Defined.

(** X3: a parser that succeeds hands back the cursor it received as the
    header handle, the whole fixed header lies inside the frame
    ([h + sizeof( *h) <= data_end]), and so does the cursor it leaves (for
    IPv4: [h + ihl * 4 <= data_end]). *)
Theorem handle_in_bounds (host : byte_order) (p : parser) (f : frame)
    (nh : hdr_cursor) (h : option Z) (r : Z) (nh' : hdr_cursor) (h' : option Z) :
  run_parser host p f nh h = Some (r, nh', h') → r ≠ -1 →
  h' = Some (pos nh)
  ∧ pos nh + header_size p <= data_end f
  ∧ pos nh' <= data_end f.
Proof.
  intros E Hr. by destruct (run_parser_success_inv host f p nh h r nh' h' E Hr)
    as (? & ? & ? & _).
Qed.

Lemma handle_in_bounds_witness :
  Some 14 = Some (pos {| pos := 14 |})
  ∧ pos {| pos := 14 |} + header_size ParseIp <= data_end frame_v4_echo_seq1
  ∧ pos {| pos := 34 |} <= data_end frame_v4_echo_seq1.
Proof.
  apply (handle_in_bounds LittleEndian ParseIp frame_v4_echo_seq1
           {| pos := 14 |} None 1 {| pos := 34 |} (Some 14)).
  - reflexivity.
  - discriminate.
Defined.

(** X4: the VLAN depth cap.  On a frame with three or more stacked VLAN
    tags (a VLAN TPID at offsets 12, 16 and 20) [parse_ethhdr] stops after
    two tags, returns the third TPID with the cursor at offset 22, and the
    classifier passes the frame. *)
Theorem vlan_depth_cap (host : byte_order) (f : frame) (stats : stats_map)
    (w0 w1 w2 : Z) :
  wire_u16 f 12 = Some w0 → vlan_tpid w0 = true →
  wire_u16 f 16 = Some w1 → vlan_tpid w1 = true →
  wire_u16 f 20 = Some w2 → vlan_tpid w2 = true →
  parse_ethhdr host f {| pos := 0 |} None
  = Some (bpf_htons host w2, {| pos := 22 |}, Some 0)
  ∧ fst <$> xdp_parser_func host f stats = Some XDP_PASS.
Proof.
  intros E0 V0 E1 V1 E2 V2.
  pose proof (parse_ethhdr_two_tags f host w0 w1 w2 E0 V0 E1 V1 E2) as E.
  rewrite V2 in E. split; [done|].
  apply wire_u16_inv in E2 as [_ R2]. apply vlan_tpid_true in V2.
  eapply xdp_parser_func_other; [done|..]; intros Heq;
    apply bpf_htons_inj in Heq; try done; destruct V2; by subst.
Qed.

Lemma vlan_depth_cap_witness :
  parse_ethhdr LittleEndian frame_v6_three_tags {| pos := 0 |} None
  = Some (bpf_htons LittleEndian ETH_P_8021Q, {| pos := 22 |}, Some 0)
  ∧ fst <$> xdp_parser_func LittleEndian frame_v6_three_tags ∅ = Some XDP_PASS.
Proof.
  apply (vlan_depth_cap LittleEndian frame_v6_three_tags ∅
           ETH_P_8021AD ETH_P_8021Q ETH_P_8021Q); reflexivity.
Defined.

(** X5: every frame shorter than 22 bytes is passed: the L4 test needs
    eight bytes at a cursor that is at least 14 bytes into the frame. *)
Theorem short_frames_pass (host : byte_order) (f : frame) (stats : stats_map) :
  data_end f < 22 →
  fst <$> xdp_parser_func host f stats = Some XDP_PASS.
Proof.
  intros Hshort.
  destruct (xdp_verdict_shape f host stats) as [E|(p & Hp & ->)]; [done|].
  unfold l4_verdict. by rewrite decide_True by lia.
Qed.

Lemma short_frames_pass_witness :
  fst <$> xdp_parser_func LittleEndian (take 21 frame_v6_echo_seq4) ∅
  = Some XDP_PASS.
Proof.
  apply (short_frames_pass LittleEndian (take 21 frame_v6_echo_seq4) ∅).
  vm_compute. reflexivity.
Defined.

(** X6: the action does not depend on the byte order of the host: the
    EtherType is compared in network byte order against converted constants
    and the sequence number is converted before the parity test. *)
Theorem verdict_host_independent (host1 host2 : byte_order) (f : frame)
    (stats : stats_map) :
  fst <$> xdp_parser_func host1 f stats = fst <$> xdp_parser_func host2 f stats.
Proof.
  destruct (xdp_parser_func_wire f stats) as [o Ho]. by rewrite !Ho.
Qed.

(** X7: an untagged frame with the IPv6 EtherType.  When the 40-byte IPv6
    header fits, the L4 test runs at offset 54; when it does not fit, the
    failure of [parse_ip6hdr] is not tested and the L4 test runs at offset
    14.  The L4 test passes the frame if eight bytes do not fit there and
    otherwise applies the parity rule to bytes 6 and 7 from that offset. *)
Theorem ipv6_untagged_verdict (host : byte_order) (f : frame) (stats : stats_map) :
  wire_u16 f 12 = Some ETH_P_IPV6 →
  fst <$> xdp_parser_func host f stats
  = Some (l4_verdict f (if decide (54 <= data_end f) then 54 else 14)).
Proof.
  intros Ety. pose proof (wire_u16_inv _ _ _ Ety) as [[_ Hfit] _].
  pose proof (parse_ethhdr_untagged host f {| pos := 0 |} None ETH_P_IPV6) as E1.
  cbn [pos] in E1. specialize (E1 Ety ltac:(lia) ltac:(done) ltac:(done)).
  case_decide as H54.
  - destruct (parse_ip6hdr_ok f {| pos := 14 |} None) as (nx & _ & _ & E2);
      cbn [pos]; [lia..|].
    by rewrite (xdp_parser_func_ipv6 host f stats _ _ _ _ _ E1 E2) by (simpl; lia).
  - pose proof (parse_ip6hdr_fail f {| pos := 14 |} None) as E2.
    cbn [pos] in E2. specialize (E2 ltac:(lia)).
    by rewrite (xdp_parser_func_ipv6 host f stats _ _ _ _ _ E1 E2) by (simpl; lia).
Qed.

Lemma ipv6_untagged_verdict_witness :
  (fst <$> xdp_parser_func LittleEndian frame_v6_tcp ∅
   = Some (l4_verdict frame_v6_tcp
             (if decide (54 <= data_end frame_v6_tcp) then 54 else 14)))
  ∧ (fst <$> xdp_parser_func LittleEndian (take 30 frame_v6_tcp) ∅
     = Some (l4_verdict (take 30 frame_v6_tcp)
               (if decide (54 <= data_end (take 30 frame_v6_tcp)) then 54 else 14))).
Proof.
  split.
  - apply (ipv6_untagged_verdict LittleEndian frame_v6_tcp ∅). reflexivity.
  - apply (ipv6_untagged_verdict LittleEndian (take 30 frame_v6_tcp) ∅).
    reflexivity.
Defined.

(** X8: an untagged frame with the IPv4 EtherType.  When the fixed 20-byte
    header and the header of IHL * 4 bytes both fit, the L4 test runs at
    offset 14 + IHL * 4, for every IHL from 0 to 15; otherwise the failure of
    [parse_iphdr] is not tested and the L4 test runs at offset 14. *)
Theorem ipv4_untagged_verdict (host : byte_order) (f : frame) (stats : stats_map) :
  wire_u16 f 12 = Some ETH_P_IP →
  fst <$> xdp_parser_func host f stats
  = Some (l4_verdict f
            (if decide (14 + sizeof_iphdr <= data_end f
                        ∧ l4_offset IPv4 f <= data_end f)
             then l4_offset IPv4 f else 14)).
Proof.
  intros Ety. pose proof (wire_u16_inv _ _ _ Ety) as [[_ Hfit] _].
  pose proof (parse_ethhdr_untagged host f {| pos := 0 |} None ETH_P_IP) as E1.
  cbn [pos] in E1. specialize (E1 Ety ltac:(lia) ltac:(done) ltac:(done)).
  unfold l4_offset, sizeof_iphdr, sizeof_ethhdr.
  destruct (decide (14 + 20 > data_end f)) as [Hshort|Hfixed].
  { pose proof (parse_iphdr_fail_fixed f {| pos := 14 |} None) as E2.
    cbn [pos] in E2. specialize (E2 Hshort).
    rewrite decide_False by lia.
    by rewrite (xdp_parser_func_ipv4 host f stats _ _ _ _ _ E1 E2) by (simpl; lia). }
  destruct (wire_ihl_in_bounds f 14) as (ihl & Ei & Ri); [lia|].
  rewrite Ei. cbn [default from_option id].
  case_decide as Hfull.
  - destruct (parse_iphdr_ok f {| pos := 14 |} None ihl) as (pr & _ & _ & E2);
      cbn [pos]; [lia|done|lia|].
    cbn [pos] in E2.
    rewrite (xdp_parser_func_ipv4 host f stats _ _ _ _ _ E1 E2) by (simpl; lia).
    cbn [pos]. do 2 f_equal. lia.
  - pose proof (parse_iphdr_fail_full f {| pos := 14 |} None ihl) as E2.
    cbn [pos] in E2. specialize (E2 ltac:(lia) Ei ltac:(lia)).
    by rewrite (xdp_parser_func_ipv4 host f stats _ _ _ _ _ E1 E2) by (simpl; lia).
Qed.

Lemma ipv4_untagged_verdict_witness :
  fst <$> xdp_parser_func BigEndian frame_v4_echo_seq1 ∅
  = Some (l4_verdict frame_v4_echo_seq1
            (if decide (14 + sizeof_iphdr <= data_end frame_v4_echo_seq1
                        ∧ l4_offset IPv4 frame_v4_echo_seq1
                          <= data_end frame_v4_echo_seq1)
             then l4_offset IPv4 frame_v4_echo_seq1 else 14)).
Proof.
  apply (ipv4_untagged_verdict BigEndian frame_v4_echo_seq1 ∅). reflexivity.
Defined.

(** * Locality: what the classifier can see *)

Section Locality.

(** Two frames of at least [n] bytes that agree on their first [n] bytes. *)
Context (host : byte_order) (f g : frame) (n : Z).
Context (Hf : n <= data_end f) (Hg : n <= data_end g).
Context (Hfg : ∀ p, 0 <= p < n → load_u8 f p = load_u8 g p).

Lemma wire_u16_agree p : 0 <= p → p + 2 <= n → wire_u16 f p = wire_u16 g p.
Proof.
  intros H0 H2. unfold wire_u16. by rewrite !Hfg by lia.
Qed.

Lemma load_u16_agree p :
  0 <= p → p + 2 <= n → load_u16 host f p = load_u16 host g p.
Proof.
  intros H0 H2. by rewrite !load_u16_wire, wire_u16_agree.
Qed.

Lemma vlan_loop_agree vh k : ∀ i proto nh,
  0 <= vh → 0 <= i → vh + (i + Z.of_nat k) * 4 <= n →
  vlan_loop host f vh k i proto nh = vlan_loop host g vh k i proto nh.
Proof.
  induction k as [|k IH]; intros i proto nh Hvh Hi Hn; cbn [vlan_loop]; [done|].
  unfold sizeof_vlan_hdr, offsetof_h_vlan_encapsulated_proto.
  rewrite !decide_False by lia.
  rewrite load_u16_agree by lia.
  destruct (load_u16 host g _) as [p1|]; [|done]. cbn [mbind option_bind].
  destruct (proto_is_vlan host p1); cbn [negb]; [|done].
  apply IH; lia.
Qed.

Lemma run_parser_agree p nh h :
  0 <= pos nh → pos nh + 60 <= n →
  run_parser host p f nh h = run_parser host p g nh h.
Proof.
  intros H0 Hn. destruct p; cbn [run_parser].
  - unfold parse_ethhdr, sizeof_ethhdr, offsetof_h_proto.
    rewrite !decide_False by lia. rewrite load_u16_agree by lia.
    destruct (load_u16 host g _) as [p0|]; [|done]. cbn [mbind option_bind pos].
    destruct (proto_is_vlan host p0); [|done].
    rewrite vlan_loop_agree; [done|lia..|].
    change (Z.of_nat (Z.to_nat VLAN_MAX_DEPTH)) with 2. lia.
  - unfold parse_ip6hdr, sizeof_ipv6hdr, offsetof_nexthdr.
    rewrite !decide_False by lia. by rewrite Hfg by lia.
  - unfold parse_iphdr, sizeof_iphdr, offsetof_protocol.
    rewrite !decide_False by lia. rewrite !load_ihl_wire.
    unfold wire_ihl. rewrite (Hfg (pos nh)) by lia.
    destruct (load_u8 g (pos nh)) as [b|]; [|done]. cbn [mbind option_bind].
    pose proof (Z.mod_pos_bound b 16 ltac:(lia)).
    rewrite !decide_False by lia. by rewrite Hfg by lia.
  - unfold parse_icmp6hdr, sizeof_icmp6hdr, offsetof_icmp6_type.
    rewrite !decide_False by lia. by rewrite Hfg by lia.
  - unfold parse_icmphdr, sizeof_icmphdr, offsetof_type.
    rewrite !decide_False by lia. by rewrite Hfg by lia.
Qed.

Lemma l4_verdict_agree p :
  0 <= p → p + 8 <= n → l4_verdict f p = l4_verdict g p.
Proof.
  intros H0 H8. unfold l4_verdict.
  rewrite !decide_False by lia. by rewrite wire_u16_agree by lia.
Qed.

End Locality.

Lemma run_parser_advance_le host (f : frame) p nh h r nh' h' :
  run_parser host p f nh h = Some (r, nh', h') → pos nh' <= pos nh + 60.
Proof.
  intros E. destruct (decide (r = -1)) as [->|Hr].
  - apply run_parser_fail_inv in E as [-> _]. lia.
  - pose proof (run_parser_success_inv host f p nh h r nh' h' E Hr)
      as (_ & _ & _ & Hadv).
    destruct p; [lia..| |lia|lia].
    destruct Hadv as (ihl & _ & ? & ->). lia.
Qed.

Lemma load_u8_take (f : frame) (k : nat) p :
  0 <= p < Z.of_nat k → load_u8 (take k f) p = load_u8 f p.
Proof.
  intros Hp. unfold load_u8. case_decide; [|done].
  by rewrite lookup_take_lt by lia.
Qed.

Lemma xdp_parser_func_agree host (f g : frame) stats :
  90 <= data_end f → 90 <= data_end g →
  (∀ p, 0 <= p < 90 → load_u8 f p = load_u8 g p) →
  fst <$> xdp_parser_func host f stats = fst <$> xdp_parser_func host g stats.
Proof.
  intros Hf Hg Hfg.
  destruct (parse_ethhdr_ok host g {| pos := 0 |} None)
    as (r & nh1 & E1g & Rr & R1); cbn [pos] in *; [lia..|].
  assert (pos nh1 <= 22) as A1.
  { destruct (run_parser_success_inv host g ParseEth _ _ _ _ _ E1g)
      as (_ & _ & _ & Hadv); cbn [pos] in *; lia. }
  pose proof (run_parser_agree host f g 90 Hf Hg Hfg ParseEth {| pos := 0 |} None)
    as E1f.
  cbn [run_parser pos] in *. specialize (E1f ltac:(lia) ltac:(lia)).
  rewrite E1g in E1f.
  destruct (decide (r = bpf_htons host ETH_P_IPV6)) as [->|H6].
  { destruct (run_parser_total host g ParseIp6 nh1 None)
      as (r2 & nh2 & h2 & E2g & R2); [lia|].
    pose proof (run_parser_advance_le host g ParseIp6 _ _ _ _ _ E2g) as A2.
    pose proof (run_parser_agree host f g 90 Hf Hg Hfg ParseIp6 nh1 None) as E2f.
    cbn [run_parser] in *. specialize (E2f ltac:(lia) ltac:(lia)).
    rewrite E2g in E2f.
    rewrite (xdp_parser_func_ipv6 host f stats _ _ _ _ _ E1f E2f) by lia.
    rewrite (xdp_parser_func_ipv6 host g stats _ _ _ _ _ E1g E2g) by lia.
    f_equal. apply (l4_verdict_agree f g 90); [done..|lia|lia]. }
  destruct (decide (r = bpf_htons host ETH_P_IP)) as [->|H4].
  { destruct (run_parser_total host g ParseIp nh1 None)
      as (r2 & nh2 & h2 & E2g & R2); [lia|].
    pose proof (run_parser_advance_le host g ParseIp _ _ _ _ _ E2g) as A2.
    pose proof (run_parser_agree host f g 90 Hf Hg Hfg ParseIp nh1 None) as E2f.
    cbn [run_parser] in *. specialize (E2f ltac:(lia) ltac:(lia)).
    rewrite E2g in E2f.
    rewrite (xdp_parser_func_ipv4 host f stats _ _ _ _ _ E1f E2f) by lia.
    rewrite (xdp_parser_func_ipv4 host g stats _ _ _ _ _ E1g E2g) by lia.
    f_equal. apply (l4_verdict_agree f g 90); [done..|lia|lia]. }
  rewrite (xdp_parser_func_other host f stats _ _ _ E1f H6 H4).
  by rewrite (xdp_parser_func_other host g stats _ _ _ E1g H6 H4).
Qed.

(** X9: the action depends only on the first 90 bytes of a frame (14 + two
    VLAN tags + the longest IPv4 header + the ICMP header): two frames of at
    least 90 bytes with the same first 90 bytes get the same action. *)
Theorem verdict_depends_on_first_90_bytes (host : byte_order) (f g : frame)
    (stats : stats_map) :
  90 <= data_end f → 90 <= data_end g → take 90 f = take 90 g →
  fst <$> xdp_parser_func host f stats = fst <$> xdp_parser_func host g stats.
Proof.
  intros Hf Hg Hfg. apply xdp_parser_func_agree; [done..|].
  intros p Hp.
  rewrite <- (load_u8_take f 90 p), <- (load_u8_take g 90 p) by lia.
  by rewrite Hfg.
Qed.

Lemma verdict_depends_on_first_90_bytes_witness :
  fst <$> xdp_parser_func LittleEndian
            (frame_v6_echo_seq4 ++ replicate 28 x00 ++ replicate 10 x01) ∅
  = fst <$> xdp_parser_func LittleEndian
              (frame_v6_echo_seq4 ++ replicate 28 x00 ++ [xff; xfe]) ∅.
Proof.
  apply (verdict_depends_on_first_90_bytes LittleEndian
           (frame_v6_echo_seq4 ++ replicate 28 x00 ++ replicate 10 x01)
           (frame_v6_echo_seq4 ++ replicate 28 x00 ++ [xff; xfe]) ∅).
  - vm_compute. discriminate.
  - vm_compute. discriminate.
  - reflexivity.
Defined.

(** X10: when a parser fails.  Called with the cursor at or after [data], a
    parser returns -1 exactly when its fixed header does not fit before
    [data_end] or, for [parse_iphdr], when the header of IHL * 4 bytes does
    not fit; it fails for no other reason, whatever the header contains. *)
Theorem parser_fails_iff (host : byte_order) (p : parser) (f : frame)
    (nh : hdr_cursor) (h : option Z) (r : Z) (nh' : hdr_cursor) (h' : option Z) :
  0 <= pos nh →
  run_parser host p f nh h = Some (r, nh', h') →
  r = -1
  ↔ pos nh + header_size p > data_end f
    ∨ (p = ParseIp
       ∧ ∃ ihl, wire_ihl f (pos nh) = Some ihl ∧ pos nh + ihl * 4 > data_end f).
Proof.
  intros Hpos E. split.
  - intros ->. destruct (decide (pos nh + header_size p > data_end f)) as [Hs|Hs];
      [by left|right].
    destruct p; cbn [run_parser header_size] in *;
      unfold sizeof_ethhdr, sizeof_ipv6hdr, sizeof_iphdr, sizeof_icmp6hdr,
        sizeof_icmphdr in *.
    + destruct (parse_ethhdr_ok host f nh h) as (r' & nh1 & E' & R' & _); [lia..|].
      rewrite E' in E. injection E as -> _ _. lia.
    + destruct (parse_ip6hdr_ok f nh h) as (r' & _ & R' & E'); [lia..|].
      rewrite E' in E. injection E as -> _ _. lia.
    + split; [done|].
      destruct (wire_ihl_in_bounds f (pos nh)) as (ihl & Ei & Ri); [lia|].
      exists ihl. split; [done|].
      destruct (decide (pos nh + ihl * 4 > data_end f)) as [|Hfull]; [done|].
      destruct (parse_iphdr_ok f nh h ihl) as (r' & _ & R' & E'); [lia|done|lia|].
      rewrite E' in E. injection E as -> _ _. lia.
    + destruct (parse_icmp6hdr_ok f nh h) as (r' & _ & R' & E'); [lia..|].
      rewrite E' in E. injection E as -> _ _. lia.
    + destruct (parse_icmphdr_ok f nh h) as (r' & _ & R' & E'); [lia..|].
      rewrite E' in E. injection E as -> _ _. lia.
  - destruct (decide (r = -1)) as [|Hr]; [done|]. intros Hfail. exfalso.
    pose proof (run_parser_success_inv host f p nh h r nh' h' E Hr)
      as (_ & Hfit & Hend & Hadv).
    destruct Hfail as [Hfail|(-> & ihl & Ei & Hfull)]; [lia|].
    destruct Hadv as (ihl' & Ei' & _ & Hp). rewrite Ei in Ei'.
    injection Ei' as <-. lia.
Qed.

Lemma parser_fails_iff_witness :
  -1 = -1
  ↔ pos {| pos := 14 |} + header_size ParseIp
      > data_end (eth_header [x08; x00] ++ x4f :: replicate 27 x00)
    ∨ (ParseIp = ParseIp
       ∧ ∃ ihl,
           wire_ihl (eth_header [x08; x00] ++ x4f :: replicate 27 x00)
                    (pos {| pos := 14 |}) = Some ihl
           ∧ pos {| pos := 14 |} + ihl * 4
               > data_end (eth_header [x08; x00] ++ x4f :: replicate 27 x00)).
Proof.
  apply (parser_fails_iff LittleEndian ParseIp
           (eth_header [x08; x00] ++ x4f :: replicate 27 x00)
           {| pos := 14 |} None (-1) {| pos := 14 |} None).
  - simpl. lia.
  - reflexivity.
Defined.

(** X11: no parser moves the cursor backwards, and none moves it forward by
    more than 60 bytes, whatever it returns. *)
Theorem cursor_never_moves_back (host : byte_order) (p : parser) (f : frame)
    (nh : hdr_cursor) (h : option Z) (r : Z) (nh' : hdr_cursor) (h' : option Z) :
  run_parser host p f nh h = Some (r, nh', h') →
  pos nh <= pos nh' <= pos nh + 60.
Proof.
  intros E. split; [|by eapply run_parser_advance_le].
  destruct (decide (r = -1)) as [->|Hr].
  - apply run_parser_fail_inv in E as [-> _]. lia.
  - pose proof (run_parser_success_inv host f p nh h r nh' h' E Hr)
      as (_ & _ & _ & Hadv).
    destruct p; [lia..| |lia|lia].
    destruct Hadv as (ihl & _ & ? & ->). lia.
Qed.

Lemma cursor_never_moves_back_witness :
  pos {| pos := 0 |} <= pos {| pos := 0 |} <= pos {| pos := 0 |} + 60.
Proof.
  apply (cursor_never_moves_back LittleEndian ParseIp
           (x40 :: replicate 19 x00) {| pos := 0 |} None 0 {| pos := 0 |} (Some 0)).
  reflexivity.
Defined.
